(** * Top-10 restaurants client: a shallow embedding and its properties

    The program under study is [top_restaurants_google_places.py]: it asks a
    place-search service for restaurants of a city, scores every result,
    keeps the ten best, fetches details for each of them and writes a JSON
    summary.

    Modelling conventions.
    - A decoded JSON document is a [value]; a Python [dict] with string keys
      is a [gmap string value].
    - A Python [float] is a real number: rounding, infinities and NaN are
      not modelled, so every statement about scores is a statement about the
      real-valued formula the code evaluates.  The conversion of an
      integer beyond the float range, which raises [OverflowError], is
      modelled as such.
    - A Python [str] is a Rocq [string]; its characters stand for the code
      points below 256.
    - A computation that may raise is a [result]; [Raise e] records the
      class of the exception.
    - The network is a state [World] with one transition [http_get], and
      the file system a second transition [write_file] on it.  Console
      output and [time.sleep] have no effect on any value and are left out:
      printing is taken to succeed, and [input] to return a line. *)

From Stdlib Require Import Reals Lra Ascii.
From stdpp Require Import gmap strings list fin_maps sorting.

Set Warnings "-register-all".

(** ** Values *)

Inductive value : Type :=
| VNone
| VBool (b : bool)
| VInt (z : Z)
| VFloat (r : R)
| VStr (s : string)
| VList (l : list value)
| VDict (m : gmap string value).

Abbreviation dict := (gmap string value).

(** Exceptions, by class.  [RequestException] stands for the whole family
    the [requests] library raises: connection errors and timeouts,
    [HTTPError] from [raise_for_status], and the JSON decoding error of
    [Response.json].  [OSError] stands for what [open] and the write to the
    file raise ([FileNotFoundError], [PermissionError], ...).
    [DictSliceError] is the exception of slicing a dict, whose class
    depends on the interpreter: [TypeError] (unhashable type: 'slice') up to
    Python 3.11, [KeyError] from Python 3.12 on. *)
Inductive exn : Type :=
| TypeError
| ValueError
| AttributeError
| OverflowError
| DictSliceError
| OSError
| RequestException.

Inductive result (A : Type) : Type :=
| Ok (a : A)
| Raise (e : exn).

Arguments Ok {A} a.
Arguments Raise {A} e.

#[export] Instance result_ret : MRet result := @Ok.
#[export] Instance result_bind : MBind result :=
  fun A B f m => match m with Ok a => f a | Raise e => Raise e end.
#[export] Instance result_fmap : FMap result :=
  fun A B f m => match m with Ok a => Ok (f a) | Raise e => Raise e end.

(** [try: body except requests.RequestException: return handler] *)
Definition except_request_exception {A} (body : result A) (handler : A) : result A :=
  match body with
  | Raise RequestException => Ok handler
  | other => other
  end.

(** Truth value of an object, as [if x], [not x] and [x or y] test it. *)
Definition truthy (x : value) : bool :=
  match x with
  | VNone => false
  | VBool b => b
  | VInt z => negb (z =? 0)%Z
  | VFloat r => if Req_dec_T r 0 then false else true
  | VStr s => match s with EmptyString => false | String _ _ => true end
  | VList l => match l with [] => false | _ :: _ => true end
  | VDict m => match map_to_list m with [] => false | _ :: _ => true end
  end.

(** [x or y] *)
Definition py_or (x y : value) : value := if truthy x then x else y.

(** [d.get(k, dflt)]; [d.get(k)] is [get d k VNone]. *)
Definition get (d : dict) (k : string) (dflt : value) : value :=
  default dflt (d !! k).

(** [x.get(k, dflt)] on an arbitrary object: only a dict has the method. *)
Definition py_get (x : value) (k : string) (dflt : value) : result value :=
  match x with
  | VDict d => Ok (get d k dflt)
  | _ => Raise AttributeError
  end.

(** The conversion of an integer to a float rounds to nearest, ties to even;
    it raises [OverflowError] exactly for the integers that round to
    [2^1024], those of absolute value [2^1024 - 2^970] or more. *)
Definition float_int_limit : Z := (2 ^ 1024 - 2 ^ 970)%Z.

Definition int_to_float (z : Z) : result R :=
  if (Z.abs z <? float_int_limit)%Z then Ok (IZR z) else Raise OverflowError.

(** [float(x)].  A string is rejected: the strings [float] would parse as a
    number are not modelled. *)
Definition py_float (x : value) : result R :=
  match x with
  | VInt z => int_to_float z
  | VFloat r => Ok r
  | VBool b => Ok (if b then 1%R else 0%R)
  | VStr _ => Raise ValueError
  | VNone | VList _ | VDict _ => Raise TypeError
  end.

(** [x * y] for a float [y]. *)
Definition py_mul_float (x : value) (y : R) : result R :=
  match x with
  | VFloat r => Ok (r * y)%R
  | VInt z => r ← int_to_float z; Ok (r * y)%R
  | VBool b => Ok ((if b then 1 else 0) * y)%R
  | VNone | VStr _ | VList _ | VDict _ => Raise TypeError
  end.

(** The decimal logarithm on the positive reals. *)
Definition Rlog10 (x : R) : R := (ln x / ln 10)%R.

(** [math.log10(x)]: a [ValueError] (math domain error) unless [0 < x]. *)
Definition log10 (x : R) : result R :=
  if Rlt_dec 0 x then Ok (Rlog10 x) else Raise ValueError.

(** ** The composite scorer *)

(** [def composite_score(rating, review_count)]:
    [r = rating or 0.0; v = float(review_count or 0);
     return r * (1.0 + math.log10(1.0 + v))] *)
Definition composite_score (rating review_count : value) : result R :=
  let r := py_or rating (VFloat 0) in
  v ← py_float (py_or review_count (VInt 0));
  l ← log10 (1 + v);
  py_mul_float r (1 + l).

(** The arguments the signature [Optional[float]], [Optional[int]] admits. *)
Definition optional_float (x : option R) : value :=
  match x with Some r => VFloat r | None => VNone end.

Definition optional_int (x : option Z) : value :=
  match x with Some z => VInt z | None => VNone end.

(** A review count is a natural number. *)
Definition optional_count (x : option N) : value :=
  optional_int (Z.of_N <$> x).

(** ** Ranking and selection *)

Section StableSort.
Context {A : Type} (key : A -> R).

(** [insert_desc x l] puts [x] in front of the first element whose key does
    not exceed the key of [x]. *)
Fixpoint insert_desc (x : A) (l : list A) : list A :=
  match l with
  | [] => [x]
  | y :: l' => if Rlt_dec (key x) (key y) then y :: insert_desc x l' else x :: l
  end.

(** [sorted(l, key=key, reverse=True)].  Python's sort is stable, also with
    [reverse=True]; on keys that are totally ordered the stable descending
    arrangement of a list is unique, and insertion from the right computes
    it. *)
Definition sorted_desc (l : list A) : list A := foldr insert_desc [] l.

End StableSort.

(** The body of the scoring loop:
    [p["_score"] = composite_score(p.get("rating"), p.get("user_ratings_total"))] *)
Definition score_place (p : value) : result dict :=
  match p with
  | VDict d =>
      s ← composite_score (get d "rating" VNone) (get d "user_ratings_total" VNone);
      Ok (<["_score" := VFloat s]> d)
  | _ => Raise AttributeError
  end.

(** [for p in raw_results: ...].  Iterating a string or a dict yields
    strings, which have no [get]; the other objects are not iterable. *)
Definition score_all (raw_results : value) : result (list dict) :=
  match raw_results with
  | VList l => mapM score_place l
  | VStr _ | VDict _ => if truthy raw_results then Raise AttributeError else Ok []
  | VNone | VBool _ | VInt _ | VFloat _ => Raise TypeError
  end.

(** The sort key [lambda d: d.get("_score", 0.0)].  After the scoring loop
    the entry is always a float; the last case is never reached there. *)
Definition score_key (d : dict) : R :=
  match get d "_score" (VFloat 0) with
  | VFloat r => r
  | VInt z => IZR z
  | VBool b => if b then 1%R else 0%R
  | VNone | VStr _ | VList _ | VDict _ => 0%R
  end.

Definition sorted_places (scored : list dict) : list dict :=
  sorted_desc score_key scored.

(** [sorted_places[:10]] *)
Definition top_candidates (scored : list dict) : list dict :=
  take 10 (sorted_places scored).

(** ** Strings *)

(** [str.isspace] on the code points below 256. *)
Definition is_space (c : ascii) : bool :=
  let n := N_of_ascii c in
  ((9 <=? n) && (n <=? 13) || (28 <=? n) && (n <=? 32) || (n =? 133) || (n =? 160))%N.

Fixpoint lstrip (s : string) : string :=
  match s with
  | EmptyString => EmptyString
  | String c s' => if is_space c then lstrip s' else s
  end.

Fixpoint rstrip (s : string) : string :=
  match s with
  | EmptyString => EmptyString
  | String c s' =>
      match rstrip s' with
      | EmptyString => if is_space c then EmptyString else String c EmptyString
      | t => String c t
      end
  end.

(** [s.strip()] *)
Definition strip (s : string) : string := rstrip (lstrip s).

(** [s.replace(old, new)] for one-character [old] and [new]. *)
Fixpoint replace_char (old new : ascii) (s : string) : string :=
  match s with
  | EmptyString => EmptyString
  | String c s' =>
      String (if Ascii.eqb c old then new else c) (replace_char old new s')
  end.

(** [str.lower] on the code points below 256: the letters A-Z and the
    accented capitals 192-222 (the multiplication sign 215 apart) move up by
    32. *)
Definition lower_char (c : ascii) : ascii :=
  let n := N_of_ascii c in
  if ((65 <=? n) && (n <=? 90) || (192 <=? n) && (n <=? 222) && negb (n =? 215))%N
  then ascii_of_N (n + 32)
  else c.

Fixpoint lower (s : string) : string :=
  match s with
  | EmptyString => EmptyString
  | String c s' => String (lower_char c) (lower s')
  end.

(** [f"top-10-restaurants-{city.replace(' ', '_').lower()}.json"] *)
Definition filename (city : string) : string :=
  "top-10-restaurants-" +:+ lower (replace_char " " "_" city) +:+ ".json".

Definition all_space (s : string) : bool :=
  forallb is_space (String.list_ascii_of_string s).

Definition first_char (s : string) : option ascii :=
  head (String.list_ascii_of_string s).

Definition last_char (s : string) : option ascii :=
  last (String.list_ascii_of_string s).

(** ** The network *)

Definition TEXT_SEARCH_ENDPOINT : string :=
  "https://maps.googleapis.com/maps/api/place/textsearch/json".
Definition DETAILS_ENDPOINT : string :=
  "https://maps.googleapis.com/maps/api/place/details/json".

(** A GET request: the endpoint and the query parameters. *)
Record request : Type := Request {
  endpoint : string;
  params : list (string * value)
}.

(** What [requests.get] hands back: the status code, and the body as
    [Response.json] decodes it ([None] when the body is not valid JSON). *)
Record response : Type := Response {
  status_code : Z;
  body : option value
}.

(** [resp.raise_for_status()]: an [HTTPError] for the codes 400 to 599. *)
Definition raise_for_status (resp : response) : result unit :=
  if ((400 <=? status_code resp) && (status_code resp <? 600))%Z
  then Raise RequestException
  else Ok tt.

(** [resp.json()]: the decoded body, or the library's JSON decoding error,
    which is a [RequestException]. *)
Definition json (resp : response) : result value :=
  match body resp with
  | Some data => Ok data
  | None => Raise RequestException
  end.

(** [x == "OK"] *)
Definition is_OK (x : value) : bool :=
  match x with
  | VStr s => String.eqb s "OK"
  | _ => false
  end.

(** The part of [text_search_restaurants] inside [try], once [requests.get]
    has answered ([None]: it raised a [RequestException]). *)
Definition search_body (answer : option response) : result value :=
  resp ← from_option Ok (Raise RequestException) answer;
  _ ← raise_for_status resp;
  data ← json resp;
  py_get data "results" (VList []).

(** The part of [fetch_place_details] inside [try]. *)
Definition details_body (answer : option response) : result value :=
  resp ← from_option Ok (Raise RequestException) answer;
  _ ← raise_for_status resp;
  data ← json resp;
  status ← py_get data "status" VNone;
  if is_OK status then py_get data "result" (VDict ∅) else Ok (VDict ∅).

Definition search_request (city api_key : string) : request :=
  let query := "best food restaurants in " +:+ city in
  Request TEXT_SEARCH_ENDPOINT
    [("query", VStr query); ("type", VStr "restaurant"); ("key", VStr api_key)].

Definition details_request (place_id : value) (api_key : string) : request :=
  let fields :=
    ["name"; "rating"; "user_ratings_total"; "formatted_address";
     "price_level"; "url"; "website"; "reviews"] in
  Request DETAILS_ENDPOINT
    [("place_id", place_id); ("fields", VStr (String.concat "," fields));
     ("key", VStr api_key)].

(** [{**p, **details}]: the keys of [details] win.  Unpacking an object that
    is not a mapping is a [TypeError]. *)
Definition merge (p : dict) (details : value) : result dict :=
  match details with
  | VDict d => Ok (d ∪ p)
  | _ => Raise TypeError
  end.

(** ** The output projector *)

(** [(p.get("reviews") or [])[:3]], as the comprehension iterates it.  A
    string is sliced to a string and iterated character by character; a
    number is not subscriptable; a dict cannot be indexed by a slice. *)
Definition first_three (reviews : value) : result (list value) :=
  match reviews with
  | VList l => Ok (take 3 l)
  | VStr s => Ok ((fun c => VStr (String c EmptyString)) <$> take 3 (String.list_ascii_of_string s))
  | VDict _ => Raise DictSliceError
  | VNone | VBool _ | VInt _ | VFloat _ => Raise TypeError
  end.

(** [(rev.get("text") or "").strip()]: only a string has [strip]. *)
Definition snippet (rev : dict) : result string :=
  match py_or (get rev "text" VNone) (VStr "") with
  | VStr s => Ok (strip s)
  | _ => Raise AttributeError
  end.

(** [[snippet(rev) for rev in revs if isinstance(rev, dict)]] *)
Fixpoint snippets (revs : list value) : result (list string) :=
  match revs with
  | [] => Ok []
  | VDict rev :: rest =>
      s ← snippet rev;
      ss ← snippets rest;
      Ok (s :: ss)
  | _ :: rest => snippets rest
  end.

(** The ["review_snippets"] entry of [build_output]. *)
Definition review_snippets (p : dict) : result (list string) :=
  revs ← first_three (py_or (get p "reviews" VNone) (VList []));
  snippets revs.

(** One value of the output mapping. *)
Record summary : Type := Summary {
  o_rating : value;
  o_user_ratings_total : value;
  o_address : value;
  o_price_level : value;
  o_google_maps_url : value;
  o_website : value;
  o_review_snippets : list string
}.

Definition build_entry (p : dict) : result summary :=
  ss ← review_snippets p;
  Ok (Summary (get p "rating" VNone) (get p "user_ratings_total" VNone)
        (get p "formatted_address" VNone) (get p "price_level" VNone)
        (get p "url" VNone) (get p "website" VNone) ss).

(** Keys of the output mapping: lists and dicts are unhashable; numbers are
    equal as keys when they are equal as numbers. *)
Definition hashable (k : value) : bool :=
  match k with
  | VList _ | VDict _ => false
  | _ => true
  end.

Definition number (x : value) : option R :=
  match x with
  | VBool b => Some (if b then 1%R else 0%R)
  | VInt z => Some (IZR z)
  | VFloat r => Some r
  | _ => None
  end.

Definition key_eqb (a b : value) : bool :=
  match a, b with
  | VNone, VNone => true
  | VStr s, VStr t => String.eqb s t
  | _, _ =>
      match number a, number b with
      | Some x, Some y => if Req_dec_T x y then true else false
      | _, _ => false
      end
  end.

(** [out[k] = v] on a dict kept in insertion order: an existing key keeps
    its place and takes the new value. *)
Fixpoint setitem (out : list (value * summary)) (k : value) (v : summary)
  : list (value * summary) :=
  match out with
  | [] => [(k, v)]
  | (k', v') :: rest =>
      if key_eqb k' k then (k', v) :: rest else (k', v') :: setitem rest k v
  end.

Fixpoint build_output_from (out : list (value * summary)) (top_places : list dict)
  : result (list (value * summary)) :=
  match top_places with
  | [] => Ok out
  | p :: rest =>
      e ← build_entry p;
      let k := get p "name" (VStr "Unknown") in
      if hashable k then build_output_from (setitem out k e) rest
      else Raise TypeError
  end.

Definition build_output (top_places : list dict) : result (list (value * summary)) :=
  build_output_from [] top_places.

(** The three early exits of [main]. *)
Inductive halt : Type :=
| MissingApiKey
| NoCityEntered
| NoResultsFound.

(** Where [main] stands after the enrichment loop. *)
Inductive stage : Type :=
| Halted (h : halt)
| Enriched (city : string) (enriched : list dict).

(** How a run of [main] ends: at an early exit, at "No detailed restaurant
    data could be retrieved", or with the output file written. *)
Inductive outcome : Type :=
| Stopped (h : halt)
| NoDetailedData
| Saved (file : string) (content : list (value * summary)).

(** [open] refuses a file name that holds a NUL character. *)
Definition has_nul (s : string) : bool :=
  existsb (Ascii.eqb Ascii.zero) (String.list_ascii_of_string s).

Section Client.
Context {World : Type}.
Context (http_get : World -> request -> option response * World).

(** The file system: whether [content] could be written to [file] ([false]
    when opening or writing raises an [OSError]), and the world after. *)
Context (write_file : World -> string -> list (value * summary) -> bool * World).

(** Computations that talk to the network and may raise. *)
Definition io (A : Type) : Type := World -> result A * World.

#[local] Instance io_ret : MRet io := fun A a w => (Ok a, w).
#[local] Instance io_bind : MBind io := fun A B f m w =>
  match m w with
  | (Ok a, w') => f a w'
  | (Raise e, w') => (Raise e, w')
  end.

Definition lift {A} (r : result A) : io A := fun w => (r, w).

Definition text_search_restaurants (city api_key : string) : io value :=
  fun w =>
    let (answer, w') := http_get w (search_request city api_key) in
    (except_request_exception (search_body answer) (VList []), w').

Definition fetch_place_details (place_id : value) (api_key : string) : io value :=
  fun w =>
    let (answer, w') := http_get w (details_request place_id api_key) in
    (except_request_exception (details_body answer) (VDict ∅), w').

(** The enrichment loop:
    [for p in top_candidates:
       details = fetch_place_details(p.get("place_id"), GOOGLE_API_KEY)
       if details: enriched.append({**p, **details})] *)
Fixpoint enrich (api_key : string) (top : list dict) : io (list dict) :=
  match top with
  | [] => mret []
  | p :: rest =>
      details ← fetch_place_details (get p "place_id" VNone) api_key;
      if truthy details then
        merged ← lift (merge p details);
        enriched ← enrich api_key rest;
        mret (merged :: enriched)
      else enrich api_key rest
  end.

(** What each fetch of the loop returns, candidate by candidate. *)
Fixpoint fetched (api_key : string) (top : list dict) (w : World) : list (result value) :=
  match top with
  | [] => []
  | p :: rest =>
      let (r, w') := fetch_place_details (get p "place_id" VNone) api_key w in
      r :: fetched api_key rest w'
  end.

(** [main] up to the end of the enrichment loop. *)
Definition enrichment_stage (GOOGLE_API_KEY : option string) (line : string) : io stage :=
  match GOOGLE_API_KEY with
  | None | Some EmptyString => mret (Halted MissingApiKey)
  | Some api_key =>
      let city := strip line in
      match city with
      | EmptyString => mret (Halted NoCityEntered)
      | _ =>
          raw_results ← text_search_restaurants city api_key;
          if truthy raw_results then
            scored ← lift (score_all raw_results);
            enriched ← enrich api_key (top_candidates scored);
            mret (Enriched city enriched)
          else mret (Halted NoResultsFound)
      end
  end.

(** [with open(filename, "w", encoding="utf-8") as f:
       json.dump(output_mapping, f, ensure_ascii=False, indent=2)].
    A name with a NUL character is refused by [open] with a [ValueError]
    before the file system is asked; any other name is put to the file
    system. *)
Definition dump_to_file (file : string) (content : list (value * summary)) : io unit :=
  fun w =>
    if has_nul file then (Raise ValueError, w)
    else
      let (written, w') := write_file w file content in
      (if written then Ok tt else Raise OSError, w').

(** [main]: [GOOGLE_API_KEY] is the environment's value, [line] what
    [input] returns at the prompt. *)
Definition main (GOOGLE_API_KEY : option string) (line : string) : io outcome :=
  s ← enrichment_stage GOOGLE_API_KEY line;
  match s with
  | Halted h => mret (Stopped h)
  | Enriched city [] => mret NoDetailedData
  | Enriched city enriched =>
      output_mapping ← lift (build_output enriched);
      _ ← dump_to_file (filename city) output_mapping;
      mret (Saved (filename city) output_mapping)
  end.

End Client.

(** Equality of reals is decidable (classically), which lets a list be
    filtered by score. *)
#[export] Instance R_eq_dec : EqDecision R := Req_dec_T.


(** ** Vocabulary for the statements about review snippets *)

(** The review entries that are records. *)
Definition records (revs : list value) : list dict :=
  omap (fun rev => match rev with VDict d => Some d | _ => None end) revs.

(** The text field of a review, empty when the review has none (or an empty
    or null one). *)
Definition text_of (rev : dict) : string :=
  match rev !! "text" with
  | Some (VStr t) => t
  | _ => EmptyString
  end.

(** The text field, when present and not empty or null, is a string. *)
Definition text_is_str (rev : dict) : Prop :=
  forall v, rev !! "text" = Some v -> truthy v = true -> exists t, v = VStr t.

Definition is_record (rev : value) : bool :=
  match rev with VDict _ => true | _ => false end.


(** ** Sample data *)

Definition sample_reviews : list value :=
  [VInt 7;
   VDict {[ "text" := VStr "  good food " ]};
   VDict {[ "rating" := VInt 5 ]};
   VDict {[ "text" := VStr "fourth" ]};
   VDict {[ "text" := VStr "fifth" ]};
   VDict {[ "text" := VStr "sixth" ]}].

Definition sample_place : dict :=
  {[ "name" := VStr "Chez Nous"; "reviews" := VList sample_reviews ]}.

(** The three places of the specification's first end-to-end scenario. *)
Definition place1 : dict :=
  {[ "name" := VStr "One"; "rating" := VFloat 4.5; "user_ratings_total" := VInt 1000 ]}.
Definition place2 : dict :=
  {[ "name" := VStr "Two"; "rating" := VFloat 4; "user_ratings_total" := VInt 5 ]}.
Definition place3 : dict :=
  {[ "name" := VStr "Three"; "rating" := VFloat 5; "user_ratings_total" := VInt 0 ]}.

(** Two places without rating or review count. *)
Definition unrated_a : dict := {[ "name" := VStr "A" ]}.
Definition unrated_b : dict := {[ "name" := VStr "B" ]}.

(** A network that gives the same answer to every request. *)
Definition always (answer : option response) : unit -> request -> option response * unit :=
  fun w _ => (answer, w).

Definition two_candidates : list dict :=
  [ {[ "name" := VStr "A"; "place_id" := VStr "a" ]};
    {[ "name" := VStr "B"; "place_id" := VStr "b" ]} ].

(** A network that knows the place ["b"] only. *)
Definition knows_b : unit -> request -> option response * unit :=
  fun w req =>
    match params req with
    | ("place_id", VStr "b") :: _ =>
        (Some (Response 200 (Some (VDict
           {[ "status" := VStr "OK";
              "result" := VDict {[ "name" := VStr "Bistro B"; "url" := VStr "u" ]} ]}))), w)
    | _ =>
        (Some (Response 200 (Some (VDict {[ "status" := VStr "NOT_FOUND" ]}))), w)
    end.

(** A network that answers the search with one place and knows its details. *)
Definition guide : unit -> request -> option response * unit :=
  fun w req =>
    if String.eqb (endpoint req) TEXT_SEARCH_ENDPOINT then
      (Some (Response 200 (Some (VDict
         {[ "status" := VStr "OK";
            "results" := VList [VDict {[ "name" := VStr "B"; "place_id" := VStr "b" ]}] ]}))), w)
    else knows_b w req.

(** A network that answers every search with [results] and every details
    request with [result]. *)
Definition serves (results result : value) : unit -> request -> option response * unit :=
  fun w req =>
    if String.eqb (endpoint req) TEXT_SEARCH_ENDPOINT then
      (Some (Response 200 (Some (VDict
         {[ "status" := VStr "OK"; "results" := results ]}))), w)
    else
      (Some (Response 200 (Some (VDict
         {[ "status" := VStr "OK"; "result" := result ]}))), w).

(** A file system that writes every file. *)
Definition any_file : unit -> string -> list (value * summary) -> bool * unit :=
  fun w _ _ => (true, w).

(** A file system with one directory and no other: a name with a slash
    cannot be opened. *)
Definition flat_directory : unit -> string -> list (value * summary) -> bool * unit :=
  fun w file _ =>
    (negb (existsb (Ascii.eqb "/") (String.list_ascii_of_string file)), w).

(** ** Vocabulary for the further properties *)

(** [out[k]] on the output mapping: the value under the key equal to [k]. *)
Fixpoint getitem (out : list (value * summary)) (k : value) : option summary :=
  match out with
  | [] => None
  | (k', v) :: rest => if key_eqb k' k then Some v else getitem rest k
  end.

(** The key a place is stored under: [p.get("name", "Unknown")]. *)
Definition name_key (p : dict) : value := get p "name" (VStr "Unknown").

(** The details request the enrichment loop sends for a candidate. *)
Definition details_request_of (api_key : string) (p : dict) : request :=
  details_request (get p "place_id" VNone) api_key.

(** A text field that has no [strip]: present, truthy and not a string. *)
Definition text_not_str (rev : dict) : Prop :=
  exists v, rev !! "text" = Some v /\ truthy v = true /\ forall t, v <> VStr t.

(** A network that also records every request it serves. *)
Definition logged {World : Type} (http_get : World -> request -> option response * World)
  : World * list request -> request -> option response * (World * list request) :=
  fun s req =>
    let (answer, w') := http_get s.1 req in (answer, (w', s.2 ++ [req])).

(** The file system next to the recording network: a write sends no
    request, and leaves the record as it is. *)
Definition unlogged {World : Type}
    (write_file : World -> string -> list (value * summary) -> bool * World)
  : World * list request -> string -> list (value * summary)
    -> bool * (World * list request) :=
  fun s file content =>
    let (written, w') := write_file s.1 file content in (written, (w', s.2)).

(** Two search results of the same name. *)
Definition same_name_1 : dict := {[ "name" := VStr "Luigi"; "rating" := VInt 3 ]}.
Definition same_name_2 : dict := {[ "name" := VStr "Luigi"; "rating" := VInt 5 ]}.

(** The sample place with a malformed fourth review. *)
Definition sample_place_bad_tail : dict :=
  {[ "name" := VStr "Chez Nous";
     "reviews" := VList (take 3 sample_reviews ++ [VDict {[ "text" := VInt 0 ]}; VDict {[ "text" := VInt 7 ]}]) ]}.

(** * Properties *)

(** ** Truth values and defaults *)

Lemma truthy_VFloat (r : R) : truthy (VFloat r) = false <-> r = 0%R.
Proof.
  simpl. destruct (Req_dec_T r 0) as [->|Hr]; split; try done.
Qed.

Lemma truthy_VInt (z : Z) : truthy (VInt z) = false <-> z = 0%Z.
Proof.
  simpl. destruct (Z.eqb_spec z 0); split; try done.
Qed.

Lemma rating_or_zero (rating : option R) :
  py_or (optional_float rating) (VFloat 0) = VFloat (default 0%R rating).
Proof.
  destruct rating as [r|]; [|done].
  unfold py_or. destruct (truthy (optional_float (Some r))) eqn:E; [done|].
  apply truthy_VFloat in E. by subst.
Qed.

Lemma count_or_zero (review_count : option Z) :
  py_or (optional_int review_count) (VInt 0) = VInt (default 0%Z review_count).
Proof.
  destruct review_count as [z|]; [|done].
  unfold py_or. destruct (truthy (optional_int (Some z))) eqn:E; [done|].
  apply truthy_VInt in E. by subst.
Qed.

(** ** Logarithms *)

Lemma ln_10_pos : (0 < ln 10)%R.
Proof. rewrite <- ln_1. apply ln_increasing; lra. Qed.

Lemma Rlog10_1 : Rlog10 1 = 0%R.
Proof. unfold Rlog10. rewrite ln_1. field. apply Rgt_not_eq, ln_10_pos. Qed.

Lemma Rlog10_nonneg (x : R) : (1 <= x)%R -> (0 <= Rlog10 x)%R.
Proof.
  intros Hx. unfold Rlog10. apply Rmult_le_pos.
  - rewrite <- ln_1. destruct Hx as [Hx| <-]; [|lra].
    left. apply ln_increasing; lra.
  - left. apply Rinv_0_lt_compat, ln_10_pos.
Qed.

Lemma Rlog10_le (x y : R) : (0 < x)%R -> (x <= y)%R -> (Rlog10 x <= Rlog10 y)%R.
Proof.
  intros Hx Hxy. unfold Rlog10. apply Rmult_le_compat_r.
  - left. apply Rinv_0_lt_compat, ln_10_pos.
  - destruct Hxy as [Hxy| ->]; [|lra]. left. by apply ln_increasing.
Qed.

Lemma log10_pos (x : R) : (0 < x)%R -> log10 x = Ok (Rlog10 x).
Proof. intros Hx. unfold log10. by destruct (Rlt_dec 0 x). Qed.

Lemma log10_nonpos (x : R) : (x <= 0)%R -> log10 x = Raise ValueError.
Proof. intros Hx. unfold log10. destruct (Rlt_dec 0 x); [lra|done]. Qed.

(** ** Integers in and out of the float range *)

Lemma int_to_float_fits (z : Z) :
  (Z.abs z < float_int_limit)%Z -> int_to_float z = Ok (IZR z).
Proof.
  intros Hz. unfold int_to_float.
  by destruct (Z.ltb_spec (Z.abs z) float_int_limit); [|lia].
Qed.

Lemma int_to_float_overflow (z : Z) :
  (float_int_limit <= Z.abs z)%Z -> int_to_float z = Raise OverflowError.
Proof.
  intros Hz. unfold int_to_float.
  by destruct (Z.ltb_spec (Z.abs z) float_int_limit); [lia|].
Qed.

(** ** The scorer on the arguments its signature admits *)

Lemma composite_score_typed (rating : option R) (review_count : option Z) :
  composite_score (optional_float rating) (optional_int review_count) =
  v ← int_to_float (default 0%Z review_count);
  l ← log10 (1 + v);
  Ok (default 0%R rating * (1 + l))%R.
Proof.
  unfold composite_score. rewrite rating_or_zero, count_or_zero.
  cbn [py_float py_mul_float].
  destruct (int_to_float _); cbn [mbind result_bind]; [|done].
  by destruct (log10 _).
Qed.

Lemma composite_score_nonneg_count (rating : option R) (review_count : option Z) :
  (0 <= default 0 review_count < float_int_limit)%Z ->
  composite_score (optional_float rating) (optional_int review_count) =
  Ok (default 0%R rating * (1 + Rlog10 (1 + IZR (default 0%Z review_count))))%R.
Proof.
  intros Hv. rewrite composite_score_typed, int_to_float_fits by lia.
  cbn [mbind result_bind]. rewrite log10_pos; [done|].
  destruct Hv as [Hv _]. apply IZR_le in Hv. lra.
Qed.

(** A count of -1 or less has no logarithm: [math.log10] raises. *)
Lemma composite_score_negative_count (rating : option R) (z : Z) :
  (- float_int_limit < z < 0)%Z ->
  composite_score (optional_float rating) (VInt z) = Raise ValueError.
Proof.
  intros Hz. change (VInt z) with (optional_int (Some z)).
  rewrite composite_score_typed, int_to_float_fits by (simpl; lia).
  cbn [mbind result_bind]. rewrite log10_nonpos; [done|]. simpl.
  assert (IZR z <= -1)%R; [|lra].
  apply IZR_le. lia.
Qed.

(** A count beyond the float range does not reach the logarithm: the
    conversion [float(review_count or 0)] raises. *)
Lemma composite_score_huge_count (rating : option R) (z : Z) :
  (float_int_limit <= Z.abs z)%Z ->
  composite_score (optional_float rating) (VInt z) = Raise OverflowError.
Proof.
  intros Hz. change (VInt z) with (optional_int (Some z)).
  by rewrite composite_score_typed, int_to_float_overflow.
Qed.

Lemma composite_score_zero_count (rating : option R) :
  composite_score (optional_float rating) (VInt 0) = Ok (default 0%R rating).
Proof.
  change (VInt 0) with (optional_int (Some 0%Z)).
  rewrite composite_score_nonneg_count; [|by vm_compute]. simpl.
  replace (1 + 0)%R with 1%R by lra. rewrite Rlog10_1. f_equal. lra.
Qed.

Lemma composite_score_absent : composite_score VNone VNone = Ok 0%R.
Proof.
  change VNone with (optional_float None) at 1.
  change VNone with (optional_int None).
  rewrite composite_score_nonneg_count; [|by vm_compute]. simpl. f_equal. lra.
Qed.

(** C1, as the code has it. For every optional rating and every optional
    review count below the float range (less than [2^1024 - 2^970]),
    [composite_score] returns the rating (0.0 when absent) times
    [1 + log10 (1 + count)] (count 0 when absent); for a count at or beyond
    that bound the conversion [float(review_count or 0)] raises
    [OverflowError].  It returns a value, without raising, when the inputs
    are absent or zero. *)
Theorem composite_score_formula (rating : option R) (review_count : option N) :
  composite_score (optional_float rating) (optional_count review_count) =
    (if (Z.of_N (default 0%N review_count) <? float_int_limit)%Z
     then Ok (default 0%R rating *
              (1 + Rlog10 (1 + IZR (Z.of_N (default 0%N review_count)))))%R
     else Raise OverflowError)
  /\ composite_score VNone VNone = Ok 0%R
  /\ composite_score (VFloat 0) (VInt 0) = Ok 0%R.
Proof.
  split; [|split].
  - assert (Hc : default 0%Z (Z.of_N <$> review_count) =
                 Z.of_N (default 0%N review_count)) by by destruct review_count.
    unfold optional_count.
    destruct (Z.ltb_spec (Z.of_N (default 0%N review_count)) float_int_limit) as [Hlt|Hge].
    + rewrite composite_score_nonneg_count; rewrite Hc; [done|lia].
    + rewrite composite_score_typed, Hc, int_to_float_overflow; [done|lia].
  - apply composite_score_absent.
  - apply (composite_score_zero_count (Some 0%R)).
Qed.

(** C1 fails as stated: a review count beyond the float range makes the
    scorer raise instead of returning the formula's value. *)
Lemma composite_score_count_too_large :
  composite_score (VFloat 4.5) (VInt (10 ^ 400)) = Raise OverflowError.
Proof.
  apply (composite_score_huge_count (Some 4.5%R)). by vm_compute.
Qed.

(** C2, as the code has it. With no reviews the score is the rating itself
    (0.0 when the rating is absent): [log10 (1 + 0) = 0], so the factor is
    1, and the score is zero only for a zero or absent rating. *)
Theorem composite_score_no_reviews (rating : option R) :
  composite_score (optional_float rating) (VInt 0) = Ok (default 0%R rating)
  /\ (composite_score (optional_float rating) (VInt 0) = Ok 0%R <->
      default 0%R rating = 0%R).
Proof.
  pose proof (composite_score_zero_count rating) as H.
  split; [done|]. rewrite H. split; [by intros [= ->]|by intros ->].
Qed.

(** C2 fails as stated: a rating of 5.0 with no reviews scores 5.0. *)
Lemma composite_score_no_reviews_not_zero :
  composite_score (VFloat 5) (VInt 0) = Ok 5%R /\ 5%R <> 0%R.
Proof.
  split; [|lra].
  apply (composite_score_zero_count (Some 5%R)).
Qed.

(** C3, as the code has it. On ratings in [0, 5] and review counts at
    least 0 and below the float range (less than [2^1024 - 2^970]) the
    score never decreases when the rating or the count grows, and a rating
    of 0 scores 0 whatever such count. *)
Theorem composite_score_monotone (r1 r2 : R) (v1 v2 : Z) :
  (0 <= r1 <= r2)%R -> (r2 <= 5)%R -> (0 <= v1 <= v2)%Z ->
  (v2 < float_int_limit)%Z ->
  exists s1 s2,
    composite_score (VFloat r1) (VInt v1) = Ok s1 /\
    composite_score (VFloat r2) (VInt v2) = Ok s2 /\
    (s1 <= s2)%R /\
    composite_score (VFloat 0) (VInt v1) = Ok 0%R.
Proof.
  intros Hr _ Hv Hfit.
  assert (Hs : forall (r : R) (v : Z), (0 <= v < float_int_limit)%Z ->
    composite_score (VFloat r) (VInt v) = Ok (r * (1 + Rlog10 (1 + IZR v)))%R).
  { intros r v H. apply (composite_score_nonneg_count (Some r) (Some v)), H. }
  eexists _, _. rewrite !Hs by lia. split_and!; try done.
  - assert (H1 : (0 <= IZR v1)%R) by (apply IZR_le; lia).
    assert (H2 : (IZR v1 <= IZR v2)%R) by (apply IZR_le; lia).
    pose proof (Rlog10_nonneg (1 + IZR v1) ltac:(lra)).
    pose proof (Rlog10_le (1 + IZR v1) (1 + IZR v2) ltac:(lra) ltac:(lra)).
    apply Rmult_le_compat; lra.
  - f_equal. lra.
Qed.

Lemma composite_score_monotone_witness :
  exists s1 s2,
    composite_score (VFloat 4) (VInt 5) = Ok s1 /\
    composite_score (VFloat 4.5) (VInt 1000) = Ok s2 /\
    (s1 <= s2)%R /\
    composite_score (VFloat 0) (VInt 5) = Ok 0%R.
Proof.
  apply (composite_score_monotone 4 4.5 5 1000); [lra | lra | lia | by vm_compute].
Defined.

(** C3 fails as stated: with a review count beyond the float range a
    rating of 0 does not score 0, the scorer raises. *)
Lemma composite_score_zero_rating_raises :
  (0 <= 2 ^ 1024)%Z
  /\ composite_score (VFloat 0) (VInt (2 ^ 1024)) = Raise OverflowError.
Proof.
  split; [by vm_compute|].
  apply (composite_score_huge_count (Some 0%R)). by vm_compute.
Qed.

(** ** The stable descending sort *)

Section StableSortFacts.
Context {A : Type} (key : A -> R).
Implicit Types (x y : A) (l : list A).








End StableSortFacts.


(** ** The scoring loop *)

Lemma mapM_Ok {A B} (f : A -> result B) (l : list A) (k : list B) :
  mapM f l = Ok k <-> Forall2 (fun x y => f x = Ok y) l k.
Proof.
  split.
  - revert k. induction l as [|x l IH]; intros k; simpl.
    + intros [= <-]. constructor.
    + destruct (f x) as [y|] eqn:Hy; simpl; [|done].
      destruct (mapM f l) as [k'|]; simpl; [|done].
      intros [= <-]. constructor; auto.
  - induction 1 as [|x y l k Hxy _ IH]; simpl; [done|].
    by rewrite Hxy; simpl; rewrite IH.
Qed.

Lemma score_key_insert (d : dict) (s : R) :
  score_key (<["_score" := VFloat s]> d) = s.
Proof. unfold score_key, get. by rewrite lookup_insert_eq. Qed.

Lemma score_place_Ok (p : value) (q : dict) :
  score_place p = Ok q <->
  exists d s, p = VDict d /\
    composite_score (get d "rating" VNone) (get d "user_ratings_total" VNone) = Ok s /\
    q = <["_score" := VFloat s]> d.
Proof.
  split.
  - destruct p; simpl; try done.
    destruct (composite_score _ _) as [s|] eqn:Hs; simpl; [|done].
    intros [= <-]. eauto.
  - intros (d & s & -> & Hs & ->). simpl. by rewrite Hs.
Qed.


Lemma score_all_unrated :
  score_all (VList [VDict unrated_a; VDict unrated_b]) =
  Ok [<["_score" := VFloat 0]> unrated_a; <["_score" := VFloat 0]> unrated_b].
Proof.
  unfold score_all, mapM, score_place.
  change (get unrated_a "rating" VNone) with VNone.
  change (get unrated_b "rating" VNone) with VNone.
  change (get unrated_a "user_ratings_total" VNone) with VNone.
  change (get unrated_b "user_ratings_total" VNone) with VNone.
  by rewrite composite_score_absent.
Qed.


Lemma Rlog10_6 : (1 / 4 < Rlog10 6)%R.
Proof.
  pose proof ln_10_pos as Hb.
  assert (H : (ln 10 < 4 * ln 6)%R).
  { replace (4 * ln 6)%R with (ln ((6 * 6) * (6 * 6))).
    - apply ln_increasing; lra.
    - rewrite !ln_mult by lra. lra. }
  unfold Rlog10, Rdiv.
  pose proof (Rinv_0_lt_compat _ Hb) as Hinv.
  pose proof (Rinv_r (ln 10) ltac:(lra)) as Hone.
  nra.
Qed.

(** The specification's first scenario, with the results in reverse order:
    ratings and review counts (4.5, 1000), (4.0, 5) and (5.0, 0) score
    [4.5 * (1 + log10 1001)], [4 * (1 + log10 6)] and 5, and are selected in
    that order. *)
Example scenario_A :
  let q1 := <["_score" := VFloat (4.5 * (1 + Rlog10 (1 + 1000)))]> place1 in
  let q2 := <["_score" := VFloat (4 * (1 + Rlog10 (1 + 5)))]> place2 in
  let q3 := <["_score" := VFloat 5]> place3 in
  score_all (VList [VDict place3; VDict place2; VDict place1]) = Ok [q3; q2; q1]
  /\ top_candidates [q3; q2; q1] = [q1; q2; q3].
Proof.
  intros q1 q2 q3. split.
  - unfold score_all, mapM, score_place.
    change (get place1 "rating" VNone) with (optional_float (Some 4.5%R)).
    change (get place2 "rating" VNone) with (optional_float (Some 4%R)).
    change (get place3 "rating" VNone) with (optional_float (Some 5%R)).
    change (get place1 "user_ratings_total" VNone) with (optional_int (Some 1000%Z)).
    change (get place2 "user_ratings_total" VNone) with (optional_int (Some 5%Z)).
    change (get place3 "user_ratings_total" VNone) with (VInt 0).
    rewrite composite_score_zero_count.
    rewrite !composite_score_nonneg_count by done.
    reflexivity.
  - unfold top_candidates, sorted_places, sorted_desc. simpl foldr.
    assert (H1 : score_key q1 = (4.5 * (1 + Rlog10 (1 + 1000)))%R)
      by apply score_key_insert.
    assert (H2 : score_key q2 = (4 * (1 + Rlog10 (1 + 5)))%R)
      by apply score_key_insert.
    assert (H3 : score_key q3 = 5%R) by apply score_key_insert.
    pose proof Rlog10_6 as H6.
    pose proof (Rlog10_le (1 + 5) (1 + 1000) ltac:(lra) ltac:(lra)) as Hle.
    replace (1 + 5)%R with 6%R in * by lra.
    unfold insert_desc.
    repeat (destruct (Rlt_dec _ _); try lra). done.
Qed.

(** ** Stripping whitespace *)

Lemma lstrip_spec (s : string) :
  exists a, s = a +:+ lstrip s /\ all_space a = true /\
    forall c, first_char (lstrip s) = Some c -> is_space c = false.
Proof.
  induction s as [|c s (a & Hs & Ha & Hc)]; simpl.
  - exists EmptyString. by split_and!.
  - destruct (is_space c) eqn:Ec.
    + exists (String c a). split_and!; [by rewrite Hs at 1| |done].
      unfold all_space in *. simpl. by rewrite Ec, Ha.
    + exists EmptyString. split_and!; [done..|].
      unfold first_char. simpl. by intros ? [= <-].
Qed.

Lemma rstrip_spec (s : string) :
  exists b, s = rstrip s +:+ b /\ all_space b = true /\
    (forall c, last_char (rstrip s) = Some c -> is_space c = false) /\
    (forall c, first_char (rstrip s) = Some c -> first_char s = Some c).
Proof.
  induction s as [|c s (b & Hs & Hb & Hl & Hf)]; simpl.
  - exists EmptyString. by split_and!.
  - revert Hs Hl Hf. destruct (rstrip s) as [|c2 t] eqn:Et; intros Hs Hl Hf.
    + simpl in Hs. subst s. destruct (is_space c) eqn:Ec.
      * exists (String c b). split_and!; [done| |done..].
        unfold all_space in *. simpl. by rewrite Ec, Hb.
      * exists b. split_and!; [done..| |done].
        unfold last_char. simpl. by intros ? [= <-].
    + exists b. split_and!; [by rewrite Hs at 1|done| |done].
      intros c' Hc'. apply Hl. by destruct t.
Qed.

Lemma strip_spec (s : string) :
  exists a b, s = a +:+ strip s +:+ b /\
    all_space a = true /\ all_space b = true /\
    (forall c, first_char (strip s) = Some c -> is_space c = false) /\
    (forall c, last_char (strip s) = Some c -> is_space c = false).
Proof.
  destruct (lstrip_spec s) as (a & Hs & Ha & Hf).
  destruct (rstrip_spec (lstrip s)) as (b & Hs' & Hb & Hl & Hf').
  exists a, b. unfold strip. split_and!; [|done..|by eauto|done].
  by rewrite <- Hs'.
Qed.

(** ** Review snippets *)

Lemma snippet_text (rev : dict) :
  text_is_str rev -> snippet rev = Ok (strip (text_of rev)).
Proof.
  unfold text_is_str, snippet, text_of, py_or, get. intros H.
  destruct (rev !! "text") as [v|]; simpl; [|done].
  destruct (truthy v) eqn:Ev.
  - destruct (H v) as [t ->]; done.
  - by destruct v as [| | | |[|]| |].
Qed.

Lemma snippet_no_text (rev : dict) :
  rev !! "text" = None -> snippet rev = Ok EmptyString.
Proof. intros H. unfold snippet, py_or, get. by rewrite H. Qed.

Lemma snippets_records (revs : list value) :
  Forall text_is_str (records revs) ->
  snippets revs = Ok ((fun d => strip (text_of d)) <$> records revs).
Proof.
  induction revs as [|rev revs IH]; simpl; [done|].
  destruct rev; simpl; try done.
  intros [H1 H2]%Forall_cons. by rewrite snippet_text, IH.
Qed.

Lemma snippets_length (revs : list value) (l : list string) :
  snippets revs = Ok l -> length l <= length revs.
Proof.
  revert l. induction revs as [|rev revs IH]; intros l; simpl.
  - by intros [= <-].
  - destruct rev; try (intros H%IH; lia).
    destruct (snippet m); simpl; [|done].
    destruct (snippets revs) as [l'|]; simpl; [|done].
    intros [= <-]. simpl. specialize (IH l' eq_refl). lia.
Qed.

Lemma first_three_length (reviews : value) (revs : list value) :
  first_three reviews = Ok revs -> length revs <= 3.
Proof.
  destruct reviews; simpl; try done; intros [= <-].
  - rewrite length_fmap, length_take. lia.
  - rewrite length_take. lia.
Qed.

Lemma review_snippets_length (p : dict) (l : list string) :
  review_snippets p = Ok l -> length l <= 3.
Proof.
  unfold review_snippets.
  destruct (first_three _) as [revs|] eqn:E; simpl; [|done].
  intros H%snippets_length. apply first_three_length in E. lia.
Qed.

Lemma review_snippets_list (p : dict) (revs : list value) :
  py_or (get p "reviews" VNone) (VList []) = VList revs ->
  Forall text_is_str (records (take 3 revs)) ->
  review_snippets p = Ok ((fun d => strip (text_of d)) <$> records (take 3 revs)).
Proof.
  intros Hp Hrevs. unfold review_snippets. rewrite Hp. simpl.
  by apply snippets_records.
Qed.

Lemma records_length (revs : list value) :
  length (records revs) <= length revs.
Proof.
  induction revs as [|[] revs IH]; simpl; lia.
Qed.

Lemma records_length_lt (revs : list value) :
  Exists (fun rev => is_record rev = false) revs ->
  length (records revs) < length revs.
Proof.
  induction 1 as [rev revs H|rev revs _ IH].
  - pose proof (records_length revs). destruct rev; simpl in *; try done; lia.
  - destruct rev; simpl; lia.
Qed.

(** C8. The projected snippet list never has more than three entries.  When
    the reviews are a list (or absent), its entries are, in order, the
    stripped text fields of the records among the first three reviews:
    entries that are not records contribute nothing, and a record without a
    text field contributes the empty string instead of an error.  Stripping
    removes exactly the leading and trailing whitespace. *)
Theorem review_snippets_spec (p : dict) :
  (forall l, review_snippets p = Ok l -> length l <= 3)
  /\ (forall revs,
        py_or (get p "reviews" VNone) (VList []) = VList revs ->
        Forall text_is_str (records (take 3 revs)) ->
        review_snippets p =
          Ok ((fun d => strip (text_of d)) <$> records (take 3 revs)))
  /\ (forall rev, rev !! "text" = None ->
        snippet rev = Ok EmptyString /\ strip (text_of rev) = EmptyString)
  /\ (forall rev t, rev !! "text" = Some (VStr t) ->
        snippet rev = Ok (strip t) /\ text_of rev = t)
  /\ (forall rev revs, is_record rev = false -> records (rev :: revs) = records revs)
  /\ (forall t, exists a b, t = a +:+ strip t +:+ b /\
        all_space a = true /\ all_space b = true /\
        (forall c, first_char (strip t) = Some c -> is_space c = false) /\
        (forall c, last_char (strip t) = Some c -> is_space c = false)).
Proof.
  split_and!.
  - apply review_snippets_length.
  - apply review_snippets_list.
  - intros rev H. split; [by apply snippet_no_text|].
    unfold text_of. by rewrite H.
  - intros rev t H.
    assert (Ht : text_of rev = t) by (unfold text_of; by rewrite H).
    split; [|done]. rewrite snippet_text; [by rewrite Ht|].
    intros v Hv _. rewrite H in Hv. injection Hv as <-. eauto.
  - by intros [].
  - apply strip_spec.
Qed.

Lemma sample_place_reviews :
  py_or (get sample_place "reviews" VNone) (VList []) = VList sample_reviews.
Proof. reflexivity. Qed.

Lemma sample_reviews_text :
  Forall text_is_str (records (take 3 sample_reviews)).
Proof.
  repeat constructor; intros v Hv _; vm_compute in Hv.
  - injection Hv as <-. eauto.
  - done.
Qed.

Lemma review_snippets_spec_witness :
  review_snippets sample_place =
  Ok ((fun d => strip (text_of d)) <$> records (take 3 sample_reviews)).
Proof.
  exact (proj1 (proj2 (review_snippets_spec sample_place)) sample_reviews
           sample_place_reviews sample_reviews_text).
Defined.

(** C10. The slice comes first and the record test second: when one of the
    first three review entries is not a record, fewer than three snippets
    come out, however many records follow in the list. *)
Theorem review_snippets_slice_then_filter (p : dict) (revs : list value) :
  py_or (get p "reviews" VNone) (VList []) = VList revs ->
  Forall text_is_str (records (take 3 revs)) ->
  Exists (fun rev => is_record rev = false) (take 3 revs) ->
  exists l, review_snippets p = Ok l /\
    l = (fun d => strip (text_of d)) <$> records (take 3 revs) /\
    length l < 3.
Proof.
  intros Hp Hrevs Hex. eexists. split; [by apply review_snippets_list|].
  split; [done|]. rewrite length_fmap.
  apply records_length_lt in Hex. rewrite length_take in Hex. lia.
Qed.

Lemma review_snippets_slice_then_filter_witness :
  (exists l, review_snippets sample_place = Ok l /\
     l = (fun d => strip (text_of d)) <$> records (take 3 sample_reviews) /\
     length l < 3)
  /\ length (records sample_reviews) = 5.
Proof.
  split; [|reflexivity].
  apply (review_snippets_slice_then_filter sample_place sample_reviews
           sample_place_reviews sample_reviews_text).
  apply Exists_cons_hd. reflexivity.
Defined.

Example sample_place_snippets :
  review_snippets sample_place = Ok ["good food"; ""].
Proof. reflexivity. Qed.

(** ** The two fetchers *)

Lemma truthy_VDict (d : dict) : truthy (VDict d) = true <-> d <> ∅.
Proof.
  simpl. rewrite <- map_to_list_empty_iff.
  destruct (map_to_list d); split; try done.
Qed.

Lemma is_OK_status (data : dict) :
  is_OK (get data "status" VNone) = true <-> data !! "status" = Some (VStr "OK").
Proof.
  unfold get. destruct (data !! "status") as [[]|]; simpl; try (split; done).
  rewrite String.eqb_eq. split; [by intros ->|by intros [= ->]].
Qed.

Lemma raise_for_status_error (resp : response) :
  (400 <= status_code resp < 600)%Z -> raise_for_status resp = Raise RequestException.
Proof.
  intros H. unfold raise_for_status.
  destruct (Z.leb_spec 400 (status_code resp)); [|lia].
  destruct (Z.ltb_spec (status_code resp) 600); [done|lia].
Qed.

Lemma raise_for_status_pass (resp : response) :
  ~ (400 <= status_code resp < 600)%Z -> raise_for_status resp = Ok tt.
Proof.
  intros H. unfold raise_for_status.
  destruct (Z.leb_spec 400 (status_code resp)); [|done].
  destruct (Z.ltb_spec (status_code resp) 600); [lia|done].
Qed.

Lemma details_body_cases (answer : option response) :
  match except_request_exception (details_body answer) (VDict ∅) with
  | Ok v =>
      v = VDict ∅ \/
      exists resp data, answer = Some resp /\ body resp = Some (VDict data) /\
        data !! "status" = Some (VStr "OK") /\ v = get data "result" (VDict ∅)
  | Raise e => e = AttributeError
  end.
Proof.
  destruct answer as [resp|]; simpl; [|by left].
  unfold details_body. simpl.
  destruct (raise_for_status resp) as [[]|[]] eqn:Hs; simpl;
    try (by unfold raise_for_status in Hs; case_match); [|by left].
  unfold json. destruct (body resp) as [v|] eqn:Hb; simpl; [|by left].
  destruct v as [| | | | | |data]; simpl; try done.
  destruct (is_OK _) eqn:HOK; simpl; [|by left].
  right. exists resp, data. by rewrite <- is_OK_status.
Qed.

Section ClientFacts.
Context {World : Type}.
Context (http_get : World -> request -> option response * World).

Lemma text_search_restaurants_answer (city api_key : string) (w : World) :
  text_search_restaurants http_get city api_key w =
  (except_request_exception
     (search_body (http_get w (search_request city api_key)).1) (VList []),
   (http_get w (search_request city api_key)).2).
Proof. unfold text_search_restaurants. by destruct (http_get _ _). Qed.

Lemma fetch_place_details_answer (place_id : value) (api_key : string) (w : World) :
  fetch_place_details http_get place_id api_key w =
  (except_request_exception
     (details_body (http_get w (details_request place_id api_key)).1) (VDict ∅),
   (http_get w (details_request place_id api_key)).2).
Proof. unfold fetch_place_details. by destruct (http_get _ _). Qed.

(** C6, as the code has it. Whatever the answer to the details request,
    [fetch_place_details] returns the record under ["result"] only for a
    JSON object whose ["status"] is ["OK"]; it returns the empty record,
    without raising, for a JSON object with any other status (or none),
    when the request fails in transport, on a 4xx or 5xx status code, and
    when the body is not valid JSON. *)
Theorem fetch_place_details_spec (place_id : value) (api_key : string) (w : World) :
  let answer := (http_get w (details_request place_id api_key)).1 in
  let returned := (fetch_place_details http_get place_id api_key w).1 in
  (answer = None -> returned = Ok (VDict ∅))
  /\ (forall resp, answer = Some resp ->
        ((400 <= status_code resp < 600)%Z -> returned = Ok (VDict ∅))
        /\ (body resp = None -> returned = Ok (VDict ∅))
        /\ (forall data,
              ~ (400 <= status_code resp < 600)%Z ->
              body resp = Some (VDict data) ->
              (data !! "status" = Some (VStr "OK") ->
                 returned = Ok (get data "result" (VDict ∅)))
              /\ (data !! "status" <> Some (VStr "OK") ->
                    returned = Ok (VDict ∅))))
  /\ (forall v, returned = Ok v -> v <> VDict ∅ ->
        exists resp data,
          answer = Some resp /\ body resp = Some (VDict data) /\
          data !! "status" = Some (VStr "OK") /\
          v = get data "result" (VDict ∅)).
Proof.
  intros answer returned. subst returned.
  rewrite fetch_place_details_answer. fold answer. simpl.
  split_and!.
  - by intros ->.
  - intros resp ->. unfold details_body. simpl. split_and!.
    + intros H. by rewrite raise_for_status_error.
    + intros H. unfold json, raise_for_status. rewrite H. by case_match.
    + intros data Hcode Hbody.
      rewrite raise_for_status_pass by done. unfold json. rewrite Hbody. simpl.
      split.
      * intros H%is_OK_status. by rewrite H.
      * intros H. destruct (is_OK _) eqn:E; [|done].
        by apply is_OK_status in E.
  - intros v Hv Hne. pose proof (details_body_cases answer) as H.
    rewrite Hv in H. by destruct H.
Qed.

(** C7, as the code has it. For a JSON object [text_search_restaurants]
    returns what stands under ["results"] (the empty list when the key is
    missing); it returns the empty list, without raising, when the request
    fails in transport, on a 4xx or 5xx status code, and when the body is not
    valid JSON, and that is also what an object with an empty result list
    gives. *)
Theorem text_search_restaurants_spec (city api_key : string) (w : World) :
  let answer := (http_get w (search_request city api_key)).1 in
  let returned := (text_search_restaurants http_get city api_key w).1 in
  (forall resp data,
     answer = Some resp -> ~ (400 <= status_code resp < 600)%Z ->
     body resp = Some (VDict data) ->
     returned = Ok (get data "results" (VList []))
     /\ (data !! "results" = Some (VList []) \/ data !! "results" = None ->
         returned = Ok (VList [])))
  /\ (answer = None -> returned = Ok (VList []))
  /\ (forall resp, answer = Some resp ->
        (400 <= status_code resp < 600)%Z -> returned = Ok (VList []))
  /\ (forall resp, answer = Some resp ->
        body resp = None -> returned = Ok (VList [])).
Proof.
  intros answer returned. subst returned.
  rewrite text_search_restaurants_answer. fold answer. simpl.
  split_and!.
  - intros resp data -> Hcode Hbody. unfold search_body. simpl.
    rewrite raise_for_status_pass by done. unfold json. rewrite Hbody. simpl.
    split; [done|]. unfold get. by intros [-> | ->].
  - by intros ->.
  - intros resp -> H. unfold search_body. simpl.
    by rewrite raise_for_status_error.
  - intros resp -> H. unfold search_body, json, raise_for_status. simpl.
    rewrite H. by case_match.
Qed.

(** ** Enrichment *)

Lemma fetched_length (api_key : string) (top : list dict) (w : World) :
  length (fetched http_get api_key top w) = length top.
Proof.
  revert w. induction top as [|p top IH]; intros w; simpl; [done|].
  destruct (fetch_place_details _ _ _ _) as [r w']. simpl. by rewrite IH.
Qed.

Lemma enrich_fetched (api_key : string) (top : list dict) (w : World) (ds : list dict) :
  fetched http_get api_key top w = (fun d => Ok (VDict d)) <$> ds ->
  (enrich http_get api_key top w).1 =
  Ok ((fun pd => pd.2 ∪ pd.1) <$> filter (fun pd => pd.2 <> ∅) (zip top ds)).
Proof.
  revert w ds. induction top as [|p top IH]; intros w ds; [done|].
  simpl. unfold mbind, io_bind at 1.
  destruct (fetch_place_details _ _ _ _) as [r w'].
  destruct ds as [|d ds]; simpl; [done|].
  intros [= -> Hrest]. specialize (IH w' ds Hrest).
  rewrite filter_cons. cbv beta iota.
  destruct (truthy (VDict d)) eqn:Hd.
  - apply truthy_VDict in Hd. rewrite decide_True by done.
    unfold mbind, io_bind, lift, mret, io_ret. simpl.
    destruct (enrich _ _ _ _) as [[enriched|e] w'']; simpl in *; [|done].
    by injection IH as ->.
  - rewrite decide_False; [exact IH|].
    simpl. intros Hne%truthy_VDict. congruence.
Qed.

(** C5. When every detail fetch of the loop returns a record, the enriched
    list consists, in the order of the selection, of exactly the candidates
    whose record is not empty, each merged with its record so that the
    record's value stands under every key the record has and the
    candidate's value under the others; the candidates kept are a
    subsequence of the selection. *)
Theorem enrichment_spec (api_key : string) (top : list dict) (w : World) (ds : list dict) :
  fetched http_get api_key top w = (fun d => Ok (VDict d)) <$> ds ->
  let kept := filter (fun pd => pd.2 <> ∅) (zip top ds) in
  exists enriched,
    (enrich http_get api_key top w).1 = Ok enriched
    /\ enriched = (fun pd => pd.2 ∪ pd.1) <$> kept
    /\ Forall2 (fun m pd => forall k,
          m !! k = match pd.2 !! k with Some v => Some v | None => pd.1 !! k end)
        enriched kept
    /\ kept.*1 `sublist_of` top
    /\ (forall p d, (p, d) ∈ zip top ds -> d = ∅ -> (p, d) ∉ kept)
    /\ length enriched <= length top.
Proof.
  intros Hds kept.
  assert (Hlen : length top = length ds).
  { rewrite <- (fetched_length api_key top w), Hds. by rewrite length_fmap. }
  assert (Hsub : kept.*1 `sublist_of` top).
  { trans ((zip top ds).*1); [apply fmap_sublist, sublist_filter|].
    by rewrite fst_zip by lia. }
  eexists. split_and!; [by apply enrich_fetched|done| |done| |].
  - apply Forall2_fmap_l, Forall_Forall2_diag, Forall_forall.
    intros [p d] _ k. simpl. rewrite lookup_union.
    by destruct (d !! k), (p !! k).
  - intros p d _ -> [H _]%list_elem_of_filter. by apply H.
  - rewrite length_fmap. apply sublist_length in Hsub.
    by rewrite length_fmap in Hsub.
Qed.

End ClientFacts.

Section RunFacts.
Context {World : Type}.
Context (http_get : World -> request -> option response * World).
Context (write_file : World -> string -> list (value * summary) -> bool * World).



End RunFacts.

(** ** Concrete runs *)

(** C6 fails as stated: a body that decodes, but not to an object, makes
    [fetch_place_details] raise. *)
Lemma fetch_place_details_raises :
  fetch_place_details (always (Some (Response 200 (Some (VList [])))))
    (VStr "ChIJ") "key" tt = (Raise AttributeError, tt).
Proof. reflexivity. Qed.

(** C7 fails as stated: a body that decodes, but not to an object, makes
    [text_search_restaurants] raise, and a status code outside 2xx that is
    not an error status does not empty the result. *)
Lemma text_search_restaurants_raises :
  text_search_restaurants (always (Some (Response 200 (Some (VList [])))))
    "Paris" "key" tt = (Raise AttributeError, tt)
  /\ text_search_restaurants
       (always (Some (Response 300 (Some (VDict {[ "results" := VList [VDict ∅] ]})))))
       "Paris" "key" tt = (Ok (VList [VDict ∅]), tt).
Proof. split; reflexivity. Qed.

Lemma enrichment_spec_witness :
  exists enriched,
    (enrich knows_b "key" two_candidates tt).1 = Ok enriched
    /\ enriched =
       [ {[ "name" := VStr "Bistro B"; "url" := VStr "u"; "place_id" := VStr "b" ]} ].
Proof.
  destruct (enrichment_spec knows_b "key" two_candidates tt
              [∅; {[ "name" := VStr "Bistro B"; "url" := VStr "u" ]}] eq_refl)
    as (enriched & H1 & H2 & _).
  exists enriched. split; [exact H1|].
  rewrite H2. reflexivity.
Defined.

Example main_new_york :
  (main guide any_file (Some "key") "  New York " tt).1 =
  Ok (Saved "top-10-restaurants-new_york.json"
        [(VStr "Bistro B", Summary VNone VNone VNone VNone (VStr "u") VNone [])]).
Proof.
  pose (b := ({[ "name" := VStr "B"; "place_id" := VStr "b" ]} : dict)).
  assert (Ht : text_search_restaurants guide "New York" "key" tt =
               (Ok (VList [VDict b]), tt)) by reflexivity.
  assert (Hs : score_all (VList [VDict b]) = Ok [<["_score" := VFloat 0]> b]).
  { unfold score_all, mapM, score_place.
    change (get b "rating" VNone) with VNone.
    change (get b "user_ratings_total" VNone) with VNone.
    by rewrite composite_score_absent. }
  unfold main, enrichment_stage.
  change (strip "  New York ") with "New York".
  cbv beta iota zeta.
  unfold mbind, io_bind, lift. cbv beta.
  rewrite Ht. cbv beta iota.
  change (truthy (VList [VDict b])) with true. cbv beta iota.
  rewrite Hs. reflexivity.
Qed.

(** Runs on a network that finds one unrated place and has details for it. *)
Lemma serves_search (results result : value) (city api_key : string) :
  text_search_restaurants (serves results result) city api_key tt = (Ok results, tt).
Proof. reflexivity. Qed.

Lemma serves_details (results result place_id : value) (api_key : string) :
  fetch_place_details (serves results result) place_id api_key tt = (Ok result, tt).
Proof. reflexivity. Qed.

Lemma enrichment_stage_serves (b d : dict) (c : ascii) (k line : string) :
  strip line <> EmptyString ->
  get b "rating" VNone = VNone -> get b "user_ratings_total" VNone = VNone ->
  d <> ∅ ->
  enrichment_stage (serves (VList [VDict b]) (VDict d)) (Some (String c k)) line tt =
  (Ok (Enriched (strip line) [d ∪ <["_score" := VFloat 0]> b]), tt).
Proof.
  intros Hline Hr Hc Hd.
  assert (Hs : score_all (VList [VDict b]) = Ok [<["_score" := VFloat 0]> b]).
  { unfold score_all, mapM, score_place. by rewrite Hr, Hc, composite_score_absent. }
  unfold enrichment_stage.
  destruct (strip line) as [|c' city]; [done|].
  unfold mbind, io_bind, lift. cbv beta.
  rewrite serves_search. cbv beta iota.
  change (truthy (VList [VDict b])) with true. cbv beta iota.
  rewrite Hs.
  change (top_candidates [<["_score" := VFloat 0]> b]) with [<["_score" := VFloat 0]> b].
  unfold enrich, mbind, io_bind. rewrite serves_details.
  apply truthy_VDict in Hd. by rewrite Hd.
Qed.


(** * Further properties of the code *)

(** ** The scorer at the edges of its domain *)

Lemma py_or_falsy (x y : value) : truthy x = false -> py_or x y = y.
Proof. intros H. unfold py_or. by rewrite H. Qed.

(** X1. A review count below zero makes [composite_score] raise, whatever
    the rating is (even one that could not be multiplied): [ValueError]
    from the logarithm, which is evaluated before the product, when the
    count is within the float range, and [OverflowError] from the
    conversion when it is [-(2^1024 - 2^970)] or less. *)
Theorem composite_score_count_below_zero (rating : value) (z : Z) :
  (z < 0)%Z ->
  composite_score rating (VInt z) =
  Raise (if (- float_int_limit <? z)%Z then ValueError else OverflowError).
Proof.
  intros Hz. unfold composite_score, py_or.
  destruct (truthy (VInt z)) eqn:E; [|apply truthy_VInt in E; lia].
  cbn [py_float].
  destruct (Z.ltb_spec (- float_int_limit) z) as [Hfit|Hout].
  - rewrite int_to_float_fits by lia. cbn [mbind result_bind].
    rewrite log10_nonpos; [done|].
    assert (IZR z <= -1)%R by (apply IZR_le; lia). lra.
  - by rewrite int_to_float_overflow by lia.
Qed.

Lemma composite_score_count_below_zero_witness :
  composite_score (VStr "n/a") (VInt (-1)) = Raise ValueError
  /\ composite_score (VStr "n/a") (VInt (- 10 ^ 400)) = Raise OverflowError.
Proof.
  split.
  - exact (composite_score_count_below_zero (VStr "n/a") (-1) eq_refl).
  - exact (composite_score_count_below_zero (VStr "n/a") (- 10 ^ 400) eq_refl).
Defined.

(** X2. A rating or review count whose truth value is false (0, 0.0,
    [False], the empty string, list or dict, as well as [None]) is treated
    like a missing one; two such arguments score 0. *)
Theorem composite_score_falsy (x : value) :
  truthy x = false ->
  (forall c, composite_score x c = composite_score VNone c)
  /\ (forall r, composite_score r x = composite_score r VNone)
  /\ (forall y, truthy y = false -> composite_score x y = Ok 0%R).
Proof.
  intros Hx. split_and!.
  - intros c. unfold composite_score. by rewrite (py_or_falsy x).
  - intros r. unfold composite_score. by rewrite (py_or_falsy x).
  - intros y Hy. rewrite <- composite_score_absent.
    unfold composite_score. by rewrite (py_or_falsy x), (py_or_falsy y).
Qed.

Lemma composite_score_falsy_witness :
  composite_score (VStr "") (VList []) = Ok 0%R.
Proof.
  exact (proj2 (proj2 (composite_score_falsy (VStr "") eq_refl)) (VList []) eq_refl).
Defined.

(** ** The scoring loop and the selection *)

(** X4. The scoring loop changes nothing but the ["_score"] entry: every
    scored result holds a float under ["_score"] (replacing whatever the
    provider sent under that key) and, under every other key, what the
    search result held. *)
Theorem score_all_frame (results : list value) (scored : list dict) :
  score_all (VList results) = Ok scored ->
  Forall2 (fun p q => exists d s,
      p = VDict d /\ q !! "_score" = Some (VFloat s) /\
      forall k, k <> "_score" -> q !! k = d !! k) results scored.
Proof.
  unfold score_all. intros H%mapM_Ok.
  eapply Forall2_impl; [exact H|]. simpl.
  intros p q (d & s & -> & _ & ->)%score_place_Ok.
  exists d, s. split_and!; [done|by rewrite lookup_insert_eq|].
  intros k Hk. by rewrite lookup_insert_ne.
Qed.

Lemma score_all_frame_witness :
  Forall2 (fun p q => exists d s,
      p = VDict d /\ q !! "_score" = Some (VFloat s) /\
      forall k, k <> "_score" -> q !! k = d !! k)
    [VDict unrated_a; VDict unrated_b]
    [<["_score" := VFloat 0]> unrated_a; <["_score" := VFloat 0]> unrated_b].
Proof. exact (score_all_frame _ _ score_all_unrated). Defined.


(** ** When the fetchers raise *)

Lemma is_record_VDict (v : value) :
  is_record v = true <-> exists d, v = VDict d.
Proof. destruct v; simpl; split; try done; try (by intros [? [=]]); eauto. Qed.

Lemma search_body_raise (answer : option response) (e : exn) :
  except_request_exception (search_body answer) (VList []) = Raise e <->
  e = AttributeError /\
  exists resp v, answer = Some resp /\ ~ (400 <= status_code resp < 600)%Z /\
    body resp = Some v /\ is_record v = false.
Proof.
  destruct answer as [resp|]; simpl; [|split; [done|by intros (_ & ? & ? & [=] & _)]].
  unfold search_body. simpl.
  destruct (decide (400 <= status_code resp < 600)%Z) as [Hc|Hc].
  - rewrite raise_for_status_error by done. simpl.
    split; [done|]. by intros (_ & ? & ? & [= <-] & ? & _).
  - rewrite raise_for_status_pass by done. simpl. unfold json.
    destruct (body resp) as [v|] eqn:Hb; simpl.
    + destruct v; simpl;
        try (split; [intros [= <-]; split; [done|]; by eexists _, _
                    |by intros (-> & _)]).
      split; [done|]. intros (_ & ? & ? & [= <-] & _ & Hv & Hr).
      rewrite Hb in Hv. by injection Hv as <-.
    + split; [done|]. intros (_ & ? & ? & [= <-] & _ & Hv & _).
      by rewrite Hb in Hv.
Qed.

Lemma details_body_raise (answer : option response) (e : exn) :
  except_request_exception (details_body answer) (VDict ∅) = Raise e <->
  e = AttributeError /\
  exists resp v, answer = Some resp /\ ~ (400 <= status_code resp < 600)%Z /\
    body resp = Some v /\ is_record v = false.
Proof.
  destruct answer as [resp|]; simpl; [|split; [done|by intros (_ & ? & ? & [=] & _)]].
  unfold details_body. simpl.
  destruct (decide (400 <= status_code resp < 600)%Z) as [Hc|Hc].
  - rewrite raise_for_status_error by done. simpl.
    split; [done|]. by intros (_ & ? & ? & [= <-] & ? & _).
  - rewrite raise_for_status_pass by done. simpl. unfold json.
    destruct (body resp) as [v|] eqn:Hb; simpl.
    + destruct v; simpl;
        try (split; [intros [= <-]; split; [done|]; by eexists _, _
                    |by intros (-> & _)]).
      split.
      * by destruct (is_OK _).
      * intros (_ & ? & ? & [= <-] & _ & Hv & Hr).
        rewrite Hb in Hv. by injection Hv as <-.
    + split; [done|]. intros (_ & ? & ? & [= <-] & _ & Hv & _).
      by rewrite Hb in Hv.
Qed.

Section FetcherFacts.
Context {World : Type}.
Context (http_get : World -> request -> option response * World).

(** X6. [text_search_restaurants] raises in one situation only: the answer
    carries a status code that is not 4xx/5xx and a body that decodes to
    something other than a JSON object; the exception is then
    [AttributeError].  It sends exactly one request, whatever happens. *)
Theorem search_raises_only_on_non_object (city api_key : string) (w : World) (e : exn) :
  ((text_search_restaurants http_get city api_key w).1 = Raise e <->
   e = AttributeError /\
   exists resp v,
     (http_get w (search_request city api_key)).1 = Some resp /\
     ~ (400 <= status_code resp < 600)%Z /\
     body resp = Some v /\ is_record v = false)
  /\ (text_search_restaurants http_get city api_key w).2 =
     (http_get w (search_request city api_key)).2.
Proof.
  rewrite text_search_restaurants_answer. simpl. split; [|done].
  apply search_body_raise.
Qed.

(** X7. [fetch_place_details] raises in one situation only: the answer
    carries a status code that is not 4xx/5xx and a body that decodes to
    something other than a JSON object; the exception is then
    [AttributeError].  It sends exactly one request, whatever happens. *)
Theorem details_raise_only_on_non_object (place_id : value) (api_key : string)
    (w : World) (e : exn) :
  ((fetch_place_details http_get place_id api_key w).1 = Raise e <->
   e = AttributeError /\
   exists resp v,
     (http_get w (details_request place_id api_key)).1 = Some resp /\
     ~ (400 <= status_code resp < 600)%Z /\
     body resp = Some v /\ is_record v = false)
  /\ (fetch_place_details http_get place_id api_key w).2 =
     (http_get w (details_request place_id api_key)).2.
Proof.
  rewrite fetch_place_details_answer. simpl. split; [|done].
  apply details_body_raise.
Qed.

(** ** The enrichment loop in general *)

Lemma enrich_kept (api_key : string) (top : list dict) (w : World)
    (enriched : list dict) :
  (enrich http_get api_key top w).1 = Ok enriched ->
  exists kept : list (dict * dict),
    enriched = (fun pd => pd.2 ∪ pd.1) <$> kept
    /\ kept.*1 `sublist_of` top
    /\ Forall (fun pd => pd.2 <> ∅) kept
    /\ length enriched <= length top.
Proof.
  revert w enriched. induction top as [|p top IH]; intros w enriched.
  - intros [= <-]. exists []. by split_and!.
  - simpl. unfold mbind, io_bind at 1.
    destruct (fetch_place_details _ _ _ _) as [[details|e] w']; [|done].
    destruct (truthy details) eqn:Ht.
    + unfold mbind, io_bind, lift, merge, mret, io_ret.
      destruct details as [| | | | | |d]; try done.
      destruct (enrich _ _ _ _) as [[rest|e] w''] eqn:Hrest; [|done].
      simpl. intros [= <-].
      destruct (IH w' rest) as (kept & -> & Hsub & Hne & Hlen);
        [by rewrite Hrest|].
      exists ((p, d) :: kept). split_and!; [done| | |].
      * simpl. by apply sublist_skip.
      * constructor; [|done]. simpl. by apply truthy_VDict.
      * simpl in *. lia.
    + intros H. destruct (IH w' enriched H) as (kept & -> & Hsub & Hne & Hlen).
      exists kept. split_and!; [done| |done|simpl; lia].
      by apply sublist_cons.
Qed.



End FetcherFacts.


(** ** The requests a run sends *)

Section LoggedFacts.
Context {World : Type}.
Context (http_get : World -> request -> option response * World).

Lemma fetch_place_details_logged (place_id : value) (api_key : string)
    (s : World * list request) :
  (fetch_place_details (logged http_get) place_id api_key s).2.2 =
  s.2 ++ [details_request place_id api_key].
Proof.
  unfold fetch_place_details, logged. by destruct (http_get _ _).
Qed.

Lemma text_search_restaurants_logged (city api_key : string)
    (s : World * list request) :
  (text_search_restaurants (logged http_get) city api_key s).2.2 =
  s.2 ++ [search_request city api_key].
Proof.
  unfold text_search_restaurants, logged. by destruct (http_get _ _).
Qed.

Lemma enrich_cons {W : Type} (h : W -> request -> option response * W)
    (api_key : string) (p : dict) (top : list dict) (s : W) :
  enrich h api_key (p :: top) s =
  match fetch_place_details h (get p "place_id" VNone) api_key s with
  | (Ok details, s') =>
      if truthy details then
        match merge p details with
        | Ok merged =>
            match enrich h api_key top s' with
            | (Ok rest, s'') => (Ok (merged :: rest), s'')
            | (Raise e, s'') => (Raise e, s'')
            end
        | Raise e => (Raise e, s')
        end
      else enrich h api_key top s'
  | (Raise e, s') => (Raise e, s')
  end.
Proof.
  simpl. unfold mbind, io_bind, lift, mret, io_ret.
  destruct (fetch_place_details _ _ _ _) as [[details|e] s']; [|done].
  destruct (truthy details); [|done]. by destruct (merge p details).
Qed.

(** The loop sends the details requests of a prefix of the selection, and
    of the whole selection when it completes. *)
Lemma enrich_logged (api_key : string) (top : list dict) (s : World * list request) :
  exists n,
    n <= length top
    /\ (enrich (logged http_get) api_key top s).2.2 =
       s.2 ++ (details_request_of api_key <$> take n top)
    /\ (forall enriched,
          (enrich (logged http_get) api_key top s).1 = Ok enriched ->
          n = length top).
Proof.
  revert s. induction top as [|p top IH]; intros s.
  - exists 0. simpl. split_and!; [done|by rewrite app_nil_r|done].
  - rewrite enrich_cons.
    pose proof (fetch_place_details_logged (get p "place_id" VNone) api_key s) as Hlog.
    destruct (fetch_place_details _ _ _ _) as [[details|e] s']; simpl in Hlog.
    + assert (Hrec : exists n,
          n <= length top
          /\ (enrich (logged http_get) api_key top s').2.2 =
             s.2 ++ (details_request_of api_key <$> take (S n) (p :: top))
          /\ (forall enriched,
                (enrich (logged http_get) api_key top s').1 = Ok enriched ->
                n = length top)).
      { destruct (IH s') as (n & Hn & Hreq & Hall). exists n.
        split_and!; [done| |done].
        rewrite Hreq, Hlog. simpl. by rewrite <- app_assoc. }
      destruct Hrec as (n & Hn & Hreq & Hall).
      destruct (truthy details).
      * destruct (merge p details) as [merged|e]; simpl.
        -- exists (S n). destruct (enrich _ _ _ _) as [[rest|e] s'']; simpl in *.
           ++ split_and!; [lia|done|]. intros _ _. f_equal. by eapply Hall.
           ++ split_and!; [lia|done|done].
        -- exists 1. split_and!; [lia| |done].
           rewrite Hlog. simpl. by destruct top.
      * exists (S n). split_and!; [simpl; lia|done|].
        intros enriched H. simpl. f_equal. by eapply Hall.
    + exists 1. split_and!; [simpl; lia| |done].
      simpl. rewrite Hlog. by destruct top.
Qed.

(** X9. When the enrichment loop completes it has sent exactly one details
    request per selected candidate, in the order of the selection, each
    for the candidate's ["place_id"]; candidates that end up dropped are
    requested like the others. *)
Theorem enrich_requests (api_key : string) (top : list dict)
    (s : World * list request) (enriched : list dict) :
  (enrich (logged http_get) api_key top s).1 = Ok enriched ->
  (enrich (logged http_get) api_key top s).2.2 =
  s.2 ++ (details_request_of api_key <$> top).
Proof.
  intros H. destruct (enrich_logged api_key top s) as (n & _ & Hreq & Hall).
  rewrite Hreq, (Hall _ H). by rewrite take_ge.
Qed.

End LoggedFacts.

Lemma enrich_requests_witness :
  (enrich (logged knows_b) "key" two_candidates (tt, [])).2.2 =
  [details_request (VStr "a") "key"; details_request (VStr "b") "key"].
Proof.
  exact (enrich_requests knows_b "key" two_candidates (tt, [])
           [ {[ "name" := VStr "Bistro B"; "url" := VStr "u"; "place_id" := VStr "b" ]} ]
           eq_refl).
Defined.

(** ** Review snippets at the edges *)

Lemma review_snippets_of_list (p : dict) (revs : list value) :
  get p "reviews" VNone = VList revs ->
  review_snippets p = snippets (take 3 revs).
Proof.
  intros H. unfold review_snippets. rewrite H.
  unfold py_or. by destruct revs.
Qed.

Lemma snippets_of_strings (cs : list ascii) :
  snippets ((fun c => VStr (String c EmptyString)) <$> cs) = Ok [].
Proof. induction cs; simpl; done. Qed.

Lemma snippet_text_not_str (rev : dict) :
  text_not_str rev -> snippet rev = Raise AttributeError.
Proof.
  intros (v & Hv & Ht & Hs). unfold snippet, py_or, get. rewrite Hv. simpl.
  rewrite Ht. destruct v; try done. by destruct (Hs s).
Qed.

Lemma snippet_raise (rev : dict) (e : exn) :
  snippet rev = Raise e -> e = AttributeError.
Proof. unfold snippet. destruct (py_or _ _); by intros [= <-]. Qed.

Lemma snippets_raise (revs : list value) (e : exn) :
  snippets revs = Raise e -> e = AttributeError.
Proof.
  induction revs as [|rev revs IH]; simpl; [done|].
  destruct rev; try exact IH.
  destruct (snippet m) eqn:Hs; simpl.
  - destruct (snippets revs); simpl; [done|]. intros [= <-]. by apply IH.
  - intros [= <-]. by eapply snippet_raise.
Qed.

Lemma snippets_text_not_str (revs : list value) :
  Exists (fun rev => exists d, rev = VDict d /\ text_not_str d) revs ->
  snippets revs = Raise AttributeError.
Proof.
  induction 1 as [rev revs (d & -> & Hd)|rev revs _ IH]; simpl.
  - by rewrite snippet_text_not_str.
  - destruct rev; try done. rewrite IH.
    destruct (snippet m) eqn:Hs; simpl; [done|].
    f_equal. by eapply snippet_raise.
Qed.

Lemma review_snippets_raise (p : dict) (e : exn) :
  review_snippets p = Raise e ->
  e = TypeError \/ e = DictSliceError \/ e = AttributeError.
Proof.
  unfold review_snippets.
  destruct (first_three _) as [revs|e'] eqn:Hf; simpl.
  - intros H%snippets_raise. by right; right.
  - intros [= <-].
    destruct (py_or _ _); simpl in Hf; simplify_eq; first [by left | by right; left].
Qed.

(** X10. Only the first three review entries are ever looked at: two places
    whose review lists agree on their first three entries give the same
    snippets (or the same exception), whatever follows in the lists. *)
Theorem review_snippets_first_three (p p' : dict) (revs revs' : list value) :
  get p "reviews" VNone = VList revs ->
  get p' "reviews" VNone = VList revs' ->
  take 3 revs = take 3 revs' ->
  review_snippets p = review_snippets p'.
Proof.
  intros H H' Heq.
  by rewrite (review_snippets_of_list p revs), (review_snippets_of_list p' revs'), Heq.
Qed.

Lemma review_snippets_first_three_witness :
  review_snippets sample_place = review_snippets sample_place_bad_tail.
Proof.
  exact (review_snippets_first_three sample_place sample_place_bad_tail _ _
           eq_refl eq_refl eq_refl).
Defined.

(** X11. How the snippet projection fails.  A missing, null or empty
    reviews entry and a reviews entry that is a string give no snippet and
    no error; a non-empty dict cannot be sliced ([DictSliceError]: a
    [TypeError] up to Python 3.11, a [KeyError] from 3.12); any other
    reviews entry that is not a list raises [TypeError]; in a list, a
    record among the first three whose text is neither empty nor a string
    raises [AttributeError]; nothing else is raised. *)
Theorem review_snippets_failures (p : dict) :
  (truthy (get p "reviews" VNone) = false -> review_snippets p = Ok [])
  /\ (forall s, get p "reviews" VNone = VStr s -> review_snippets p = Ok [])
  /\ (forall d, get p "reviews" VNone = VDict d -> d <> ∅ ->
      review_snippets p = Raise DictSliceError)
  /\ (truthy (get p "reviews" VNone) = true ->
      (forall l, get p "reviews" VNone <> VList l) ->
      (forall s, get p "reviews" VNone <> VStr s) ->
      (forall d, get p "reviews" VNone <> VDict d) ->
      review_snippets p = Raise TypeError)
  /\ (forall revs, get p "reviews" VNone = VList revs ->
      Exists (fun rev => exists d, rev = VDict d /\ text_not_str d) (take 3 revs) ->
      review_snippets p = Raise AttributeError)
  /\ (forall e, review_snippets p = Raise e ->
      e = TypeError \/ e = DictSliceError \/ e = AttributeError).
Proof.
  split_and!.
  - intros H. unfold review_snippets. by rewrite py_or_falsy.
  - intros s H. unfold review_snippets, py_or. rewrite H.
    destruct s as [|c s]; simpl; [done|].
    apply (snippets_of_strings (take 3 (c :: String.list_ascii_of_string s))).
  - intros d H Hd. unfold review_snippets, py_or. rewrite H.
    apply truthy_VDict in Hd. by rewrite Hd.
  - intros Ht Hl Hs Hd. unfold review_snippets, py_or. rewrite Ht.
    destruct (get p "reviews" VNone) as [| | | |s|l|d]; try done.
    + by destruct (Hs s).
    + by destruct (Hl l).
    + by destruct (Hd d).
  - intros revs H Hex. rewrite (review_snippets_of_list p revs H).
    by apply snippets_text_not_str.
  - apply review_snippets_raise.
Qed.

(** ** The output mapping *)

Lemma key_eqb_true (a b : value) :
  key_eqb a b = true <->
  (a = VNone /\ b = VNone)
  \/ (exists s, a = VStr s /\ b = VStr s)
  \/ (exists x, number a = Some x /\ number b = Some x).
Proof.
  split.
  - destruct a, b; simpl; try done;
      try (destruct (Req_dec_T _ _) as [->|]; [|done]; intros _; right; right; eauto).
    + intros _. by left.
    + intros ->%String.eqb_eq. right. left. eauto.
  - intros [[-> ->]|[(s & -> & ->)|(x & Ha & Hb)]]; simpl.
    + done.
    + apply String.eqb_refl.
    + destruct a, b; simpl in *; try done;
        injection Ha as <-; injection Hb as <-;
        by destruct (Req_dec_T _ _).
Qed.

Lemma key_eqb_refl (k : value) : hashable k = true -> key_eqb k k = true.
Proof.
  intros H. apply key_eqb_true. destruct k; simpl in *; try done; eauto.
Qed.

Lemma key_eqb_eucl (a b c : value) :
  key_eqb a b = true -> key_eqb a c = key_eqb b c.
Proof.
  intros Hab. apply key_eqb_true in Hab.
  destruct (key_eqb a c) eqn:Hac, (key_eqb b c) eqn:Hbc; try done.
  - apply key_eqb_true in Hac. rewrite <- Hbc. symmetry. apply key_eqb_true.
    destruct Hab as [[-> ->]|[(s & -> & ->)|(x & Ha & Hb)]]; [done..|].
    destruct Hac as [[-> ->]|[(s & -> & ->)|(y & Ha' & Hc)]]; [done..|].
    right. right. exists x. split; [done|]. congruence.
  - apply key_eqb_true in Hbc. rewrite <- Hac. apply key_eqb_true.
    destruct Hab as [[-> ->]|[(s & -> & ->)|(x & Ha & Hb)]]; [done..|].
    destruct Hbc as [[-> ->]|[(s & -> & ->)|(y & Hb' & Hc)]]; [done..|].
    right. right. exists x. split; [done|]. congruence.
Qed.

Lemma getitem_setitem_eq (out : list (value * summary)) (k : value) (v : summary) :
  hashable k = true -> getitem (setitem out k v) k = Some v.
Proof.
  intros Hk. induction out as [|[k' v'] out IH]; simpl.
  - by rewrite key_eqb_refl.
  - destruct (key_eqb k' k) eqn:E; simpl; by rewrite E.
Qed.

Lemma getitem_setitem_ne (out : list (value * summary)) (k k' : value) (v : summary) :
  key_eqb k k' = false -> getitem (setitem out k v) k' = getitem out k'.
Proof.
  intros Hk. induction out as [|[k0 v0] out IH]; simpl.
  - by rewrite Hk.
  - destruct (key_eqb k0 k) eqn:E; simpl.
    + by rewrite (key_eqb_eucl k0 k k' E), Hk.
    + by rewrite IH.
Qed.

Lemma setitem_length (out : list (value * summary)) (k : value) (v : summary) :
  length out <= length (setitem out k v) <= S (length out)
  /\ 1 <= length (setitem out k v).
Proof.
  induction out as [|[k' v'] out IH]; simpl; [lia|].
  destruct (key_eqb k' k); simpl; lia.
Qed.

Lemma build_output_from_cons (out : list (value * summary)) (p : dict)
    (rest : list dict) (res : list (value * summary)) :
  build_output_from out (p :: rest) = Ok res <->
  exists e, build_entry p = Ok e /\ hashable (name_key p) = true /\
    build_output_from (setitem out (name_key p) e) rest = Ok res.
Proof.
  simpl. unfold name_key. destruct (build_entry p) as [e|]; simpl.
  - destruct (hashable _); split; try done.
    + eauto.
    + by intros (? & [= <-] & _ & ?).
    + by intros (? & _ & ? & _).
  - split; [done|]. by intros (? & ? & _).
Qed.

Lemma build_output_from_keeps (places : list dict) (out res : list (value * summary))
    (k : value) :
  build_output_from out places = Ok res ->
  Forall (fun q => key_eqb (name_key q) k = false) places ->
  getitem res k = getitem out k.
Proof.
  revert out. induction places as [|p places IH]; intros out.
  - by intros [= <-].
  - intros (e & _ & _ & Hrest)%build_output_from_cons [Hp Hps]%Forall_cons.
    rewrite (IH _ Hrest Hps). by apply getitem_setitem_ne.
Qed.

Lemma build_output_from_length (places : list dict) (out res : list (value * summary)) :
  build_output_from out places = Ok res ->
  length out <= length res <= length out + length places
  /\ (places <> [] -> 1 <= length res).
Proof.
  revert out. induction places as [|p places IH]; intros out.
  - intros [= <-]. simpl. split; [lia|done].
  - intros (e & _ & _ & Hrest)%build_output_from_cons.
    destruct (IH _ Hrest) as [Hlen _].
    pose proof (setitem_length out (name_key p) e). simpl. split; [lia|].
    intros _. lia.
Qed.

(** X12. The output mapping is keyed by name and the last place of a name
    wins: the entry found under a place's name is the projection of that
    place whenever no later place has an equal name, whatever stood under
    the name before; a place without a name is stored under ["Unknown"]. *)
Theorem build_output_last_wins (before after : list dict) (p : dict)
    (out : list (value * summary)) :
  build_output (before ++ p :: after) = Ok out ->
  Forall (fun q => key_eqb (name_key q) (name_key p) = false) after ->
  (exists e, build_entry p = Ok e /\ getitem out (name_key p) = Some e)
  /\ (p !! "name" = None -> name_key p = VStr "Unknown").
Proof.
  intros Hout Hafter. split; [|by unfold name_key, get; intros ->].
  unfold build_output in Hout. revert Hout. generalize (@nil (value * summary)).
  induction before as [|q before IH]; intros acc; simpl app.
  - intros (e & He & Hh & Hrest)%build_output_from_cons.
    exists e. split; [done|].
    rewrite (build_output_from_keeps _ _ _ _ Hrest Hafter).
    by apply getitem_setitem_eq.
  - intros (e & _ & _ & Hrest)%build_output_from_cons. by eapply IH.
Qed.

Lemma build_output_same_name :
  build_output ([same_name_1] ++ same_name_2 :: []) =
  Ok [(VStr "Luigi", Summary (VInt 5) VNone VNone VNone VNone VNone [])].
Proof. reflexivity. Qed.

Lemma build_output_last_wins_witness :
  exists e, build_entry same_name_2 = Ok e /\
    getitem [(VStr "Luigi", Summary (VInt 5) VNone VNone VNone VNone VNone [])]
      (name_key same_name_2) = Some e.
Proof.
  exact (proj1 (build_output_last_wins [same_name_1] [] same_name_2 _
                  build_output_same_name (Forall_nil_2 _))).
Defined.

(** X13. [build_output] returns exactly when every place has a hashable
    name (anything but a list or a dict) and a snippet projection that
    goes through; the mapping then has at most one entry per place, and at
    least one entry unless there is no place at all. *)
Theorem build_output_returns_iff (places : list dict) :
  ((exists out, build_output places = Ok out) <->
   Forall (fun p => hashable (name_key p) = true /\
                    exists ss, review_snippets p = Ok ss) places)
  /\ (forall out, build_output places = Ok out ->
        length out <= length places /\ (places <> [] -> out <> [])).
Proof.
  split.
  - unfold build_output. generalize (@nil (value * summary)).
    induction places as [|p places IH]; intros acc.
    + split; [by constructor|]. intros _. by exists acc.
    + split.
      * intros (out & (e & He & Hh & Hrest)%build_output_from_cons).
        constructor; [|apply (IH (setitem acc (name_key p) e)); eauto].
        split; [done|]. unfold build_entry in He.
        destruct (review_snippets p) as [ss|]; [eauto|done].
      * intros [(Hh & ss & Hss) Hps]%Forall_cons.
        pose (e := Summary (get p "rating" VNone) (get p "user_ratings_total" VNone)
                     (get p "formatted_address" VNone) (get p "price_level" VNone)
                     (get p "url" VNone) (get p "website" VNone) ss).
        destruct (proj2 (IH (setitem acc (name_key p) e)) Hps) as [out Hout].
        exists out. apply build_output_from_cons. exists e.
        split_and!; [|done..]. unfold build_entry. by rewrite Hss.
  - intros out Hout. apply build_output_from_length in Hout as [Hlen Hne].
    simpl in Hlen. split; [lia|].
    intros Hp ->. specialize (Hne Hp). simpl in Hne. lia.
Qed.

Lemma review_snippets_same_reviews (p q : dict) :
  p !! "reviews" = q !! "reviews" -> review_snippets p = review_snippets q.
Proof. intros H. unfold review_snippets, get. by rewrite H. Qed.

Lemma get_union (d p : dict) (k : string) :
  get (d ∪ p) k VNone = default (get p k VNone) (d !! k).
Proof.
  unfold get. rewrite lookup_union.
  by destruct (d !! k), (p !! k).
Qed.

(** X14. What the output shows for an enriched place: every field is taken
    from the detail record when the record has the key, else from the
    search result, else it is null; the address comes from
    ["formatted_address"] and the map link from ["url"]; the snippets are
    those of the record's reviews when the record has any. *)
Theorem merged_entry_fields (p d : dict) (e : summary) :
  build_entry (d ∪ p) = Ok e ->
  o_rating e = default (get p "rating" VNone) (d !! "rating")
  /\ o_user_ratings_total e =
     default (get p "user_ratings_total" VNone) (d !! "user_ratings_total")
  /\ o_address e = default (get p "formatted_address" VNone) (d !! "formatted_address")
  /\ o_price_level e = default (get p "price_level" VNone) (d !! "price_level")
  /\ o_google_maps_url e = default (get p "url" VNone) (d !! "url")
  /\ o_website e = default (get p "website" VNone) (d !! "website")
  /\ (is_Some (d !! "reviews") -> review_snippets d = Ok (o_review_snippets e))
  /\ (d !! "reviews" = None -> review_snippets p = Ok (o_review_snippets e)).
Proof.
  unfold build_entry. destruct (review_snippets (d ∪ p)) as [ss|] eqn:Hss; [|done].
  simpl. intros [= <-]. simpl. rewrite !get_union. split_and!; try done.
  - intros [v Hv]. rewrite <- Hss. apply review_snippets_same_reviews.
    rewrite lookup_union, Hv. by destruct (p !! "reviews").
  - intros Hv. rewrite <- Hss. apply review_snippets_same_reviews.
    rewrite lookup_union, Hv. by destruct (p !! "reviews").
Qed.

Lemma merged_entry_fields_witness :
  o_rating (Summary (VInt 5) VNone VNone VNone VNone VNone []) =
  default (get same_name_1 "rating" VNone) (same_name_2 !! "rating").
Proof.
  exact (proj1 (merged_entry_fields same_name_1 same_name_2
                  (Summary (VInt 5) VNone VNone VNone VNone VNone []) eq_refl)).
Defined.

(** ** Blank input and file names *)

Lemma lstrip_empty_iff (s : string) : lstrip s = EmptyString <-> all_space s = true.
Proof.
  unfold all_space. induction s as [|c s IH]; simpl; [done|].
  destruct (is_space c); simpl; [done|]. split; done.
Qed.

Lemma rstrip_empty (s : string) :
  rstrip s = EmptyString -> all_space s = true.
Proof.
  unfold all_space. induction s as [|c s IH]; simpl; [done|].
  destruct (rstrip s); [|done].
  destruct (is_space c); [|done]. intros _. by rewrite IH.
Qed.

Lemma strip_empty_iff (s : string) : strip s = EmptyString <-> all_space s = true.
Proof.
  unfold strip. split.
  - intros H%rstrip_empty. apply lstrip_empty_iff.
    destruct (lstrip_spec s) as (a & _ & _ & Hf).
    destruct (lstrip s) as [|c t]; [done|].
    specialize (Hf c eq_refl). unfold all_space in H. simpl in H.
    by rewrite Hf in H.
  - intros H%lstrip_empty_iff. by rewrite H.
Qed.

Lemma lower_char_facts (c : ascii) :
  lower_char (lower_char c) = lower_char c
  /\ (lower_char c = " "%char -> c = " "%char)
  /\ lower_char (if Ascii.eqb c " " then "_"%char else c) =
     (if Ascii.eqb (lower_char c) " " then "_"%char else lower_char c)
  /\ ~ (65 <= N_of_ascii (lower_char c) <= 90)%N.
Proof.
  destruct c as [[] [] [] [] [] [] [] []]; vm_compute; split_and!; try done;
    intros [H1 H2]; by (apply H1 || apply H2).
Qed.

Lemma lower_replace (s : string) :
  lower (replace_char " " "_" s) = replace_char " " "_" (lower s).
Proof.
  induction s as [|c s IH]; simpl; [done|].
  rewrite IH. f_equal. apply lower_char_facts.
Qed.

Lemma string_app_chars (s t : string) :
  String.list_ascii_of_string (s +:+ t) =
  String.list_ascii_of_string s ++ String.list_ascii_of_string t.
Proof. induction s as [|c s IH]; simpl; [done|]. by rewrite IH. Qed.

Lemma lower_replace_chars (s : string) :
  Forall (fun c => c <> " "%char /\ lower_char c = c
                   /\ ~ (65 <= N_of_ascii c <= 90)%N)
    (String.list_ascii_of_string (lower (replace_char " " "_" s))).
Proof.
  induction s as [|c s IH]; simpl; constructor; [|done].
  set (c0 := if Ascii.eqb c " " then "_"%char else c).
  assert (Hc0 : c0 <> " "%char).
  { unfold c0. by destruct (Ascii.eqb_spec c " "). }
  destruct (lower_char_facts c0) as (H1 & H2 & _ & H4).
  split_and!; [|done..]. intros H. by apply Hc0, H2.
Qed.

(** X15. The name of the output file never contains a space or a capital
    letter A-Z, whatever the city; lowercasing it changes nothing; and two
    cities that differ only in letter case are written to the same file. *)
Theorem filename_shape (city : string) :
  Forall (fun c => c <> " "%char /\ ~ (65 <= N_of_ascii c <= 90)%N)
    (String.list_ascii_of_string (filename city))
  /\ lower (filename city) = filename city
  /\ (forall city', lower city = lower city' -> filename city = filename city').
Proof.
  unfold filename. split_and!.
  - rewrite !string_app_chars, !Forall_app. split_and!.
    + vm_compute. repeat constructor; try done; intros [H1 H2]; by (apply H1 || apply H2).
    + eapply Forall_impl; [apply lower_replace_chars|].
      by intros c (? & _ & ?).
    + vm_compute. repeat constructor; try done; intros [H1 H2]; by (apply H1 || apply H2).
  - assert (Happ : forall s t, lower (s +:+ t) = lower s +:+ lower t).
    { intros s t. induction s as [|c s IH]; simpl; [done|]. by rewrite IH. }
    assert (Hidem : forall s, lower (lower s) = lower s).
    { intros s. induction s as [|c s IH]; simpl; [done|].
      rewrite IH. f_equal. apply lower_char_facts. }
    by rewrite !Happ, Hidem.
  - intros city' H. by rewrite !lower_replace, H.
Qed.

(** ** Whole runs *)

Section MainFacts.
Context {World : Type}.
Context (http_get : World -> request -> option response * World).
Context (write_file : World -> string -> list (value * summary) -> bool * World).

(** [main] once the key is set and the city is not blank. *)
Lemma main_regular (c : ascii) (k line : string) (w : World) :
  strip line <> EmptyString ->
  main http_get write_file (Some (String c k)) line w =
  match text_search_restaurants http_get (strip line) (String c k) w with
  | (Raise e, w1) => (Raise e, w1)
  | (Ok raw_results, w1) =>
      if truthy raw_results then
        match score_all raw_results with
        | Raise e => (Raise e, w1)
        | Ok scored =>
            match enrich http_get (String c k) (top_candidates scored) w1 with
            | (Raise e, w2) => (Raise e, w2)
            | (Ok [], w2) => (Ok NoDetailedData, w2)
            | (Ok (p :: enriched), w2) =>
                match build_output (p :: enriched) with
                | Ok out =>
                    match dump_to_file write_file (filename (strip line)) out w2 with
                    | (Ok _, w3) => (Ok (Saved (filename (strip line)) out), w3)
                    | (Raise e, w3) => (Raise e, w3)
                    end
                | Raise e => (Raise e, w2)
                end
            end
        end
      else (Ok (Stopped NoResultsFound), w1)
  end.
Proof.
  intros Hcity. unfold main, enrichment_stage.
  destruct (strip line) as [|c' city] eqn:Hs; [done|].
  unfold mbind, io_bind, lift, mret, io_ret.
  destruct (text_search_restaurants _ _ _ _) as [[raw|e] w1]; [|done].
  destruct (truthy raw); [|done].
  destruct (score_all raw) as [scored|e]; [|done].
  by destruct (enrich _ _ _ _) as [[[|p enriched]|e] w2].
Qed.

Lemma main_no_key (key : option string) (line : string) (w : World) :
  key = None \/ key = Some EmptyString ->
  main http_get write_file key line w = (Ok (Stopped MissingApiKey), w).
Proof. by intros [-> | ->]. Qed.

Lemma main_no_city (c : ascii) (k line : string) (w : World) :
  strip line = EmptyString ->
  main http_get write_file (Some (String c k)) line w = (Ok (Stopped NoCityEntered), w).
Proof. intros H. unfold main, enrichment_stage. by rewrite H. Qed.

Lemma main_regular_outcome (c : ascii) (k line : string) (w : World) :
  strip line <> EmptyString ->
  (main http_get write_file (Some (String c k)) line w).1 <> Ok (Stopped MissingApiKey)
  /\ (main http_get write_file (Some (String c k)) line w).1 <> Ok (Stopped NoCityEntered).
Proof.
  intros Hcity. rewrite main_regular by done.
  destruct (text_search_restaurants _ _ _ _) as [[raw|e] w1]; [|done].
  destruct (truthy raw); [|done].
  destruct (score_all raw) as [scored|e]; [|done].
  destruct (enrich _ _ _ _) as [[[|p enriched]|e] w2]; try done.
  destruct (build_output _); [|done].
  by destruct (dump_to_file _ _ _ _) as [[[]|e] w3].
Qed.

(** X16. The two exits before any work.  The run stops at the missing-key
    message exactly when the key is unset or empty, and at "No city
    entered." exactly when the key is set and the typed line is empty or
    all whitespace; in both cases no request is sent. *)
Theorem main_early_exits (key : option string) (line : string) (w : World) :
  ((main http_get write_file key line w).1 = Ok (Stopped MissingApiKey) <->
   key = None \/ key = Some EmptyString)
  /\ ((main http_get write_file key line w).1 = Ok (Stopped NoCityEntered) <->
      (exists c k, key = Some (String c k)) /\ all_space line = true)
  /\ (key = None \/ key = Some EmptyString \/ all_space line = true ->
      (main http_get write_file key line w).2 = w).
Proof.
  destruct key as [[|c k]|].
  - rewrite main_no_key by eauto. simpl. split_and!; try done.
    + split; [eauto|done].
    + split; [done|]. by intros [(? & ? & [=]) _].
  - destruct (decide (strip line = EmptyString)) as [Hs|Hs].
    + rewrite main_no_city by done. simpl.
      apply strip_empty_iff in Hs. split_and!; try done.
      * split; [done|]. by intros [[=]|[=]].
      * split; [eauto|done].
    + destruct (main_regular_outcome c k line w Hs) as [H1 H2].
      assert (Hns : all_space line <> true) by by rewrite <- strip_empty_iff.
      split_and!.
      * split; [done|]. by intros [[=]|[=]].
      * split; [done|]. by intros [_ ?].
      * by intros [[=]|[[=]|?]].
  - rewrite main_no_key by eauto. simpl. split_and!; try done.
    + split; [eauto|done].
    + split; [done|]. by intros [(? & ? & [=]) _].
Qed.

(** X17. When the search gives nothing - an empty or missing result list,
    or a request that failed in transport - the run
    stops at "No results found." having sent the search request and
    nothing else. *)
Theorem main_no_results (c : ascii) (k line : string) (w : World) :
  strip line <> EmptyString ->
  (forall raw, (text_search_restaurants http_get (strip line) (String c k) w).1 = Ok raw ->
     truthy raw = false ->
     main http_get write_file (Some (String c k)) line w =
     (Ok (Stopped NoResultsFound),
      (http_get w (search_request (strip line) (String c k))).2))
  /\ ((http_get w (search_request (strip line) (String c k))).1 = None ->
      main http_get write_file (Some (String c k)) line w =
      (Ok (Stopped NoResultsFound),
       (http_get w (search_request (strip line) (String c k))).2)).
Proof.
  intros Hcity.
  assert (H : forall raw,
    (text_search_restaurants http_get (strip line) (String c k) w).1 = Ok raw ->
    truthy raw = false ->
    main http_get write_file (Some (String c k)) line w =
    (Ok (Stopped NoResultsFound),
     (http_get w (search_request (strip line) (String c k))).2)).
  { intros raw Hraw Ht. rewrite main_regular by done.
    rewrite text_search_restaurants_answer in *. simpl in Hraw.
    rewrite Hraw. by rewrite Ht. }
  split; [exact H|].
  intros Hnone. apply (H (VList [])); [|done].
  rewrite text_search_restaurants_answer. simpl. by rewrite Hnone.
Qed.

End MainFacts.

Lemma main_no_results_witness :
  main (always None) any_file (Some "key") "Oslo" tt = (Ok (Stopped NoResultsFound), tt).
Proof.
  exact (proj2 (main_no_results (always None) any_file "k" "ey" "Oslo" tt ltac:(done))
           eq_refl).
Defined.

(** ** What a run can raise, write and request *)

Lemma int_to_float_raise (z : Z) (e : exn) :
  int_to_float z = Raise e -> e = OverflowError.
Proof. unfold int_to_float. by destruct (_ <? _)%Z; intros [= <-]. Qed.

Lemma py_float_raise (x : value) (e : exn) :
  py_float x = Raise e -> e <> RequestException.
Proof.
  destruct x; cbn [py_float]; try by intros [= <-].
  by intros ->%int_to_float_raise.
Qed.

Lemma py_mul_float_raise (x : value) (y : R) (e : exn) :
  py_mul_float x y = Raise e -> e <> RequestException.
Proof.
  destruct x; cbn [py_mul_float]; try by intros [= <-].
  destruct (int_to_float _) eqn:Hz; cbn [mbind result_bind]; [done|].
  intros [= <-]. by apply int_to_float_raise in Hz as ->.
Qed.

Lemma composite_score_raise (rating review_count : value) (e : exn) :
  composite_score rating review_count = Raise e -> e <> RequestException.
Proof.
  unfold composite_score.
  destruct (py_float _) as [v|e1] eqn:Hv; cbn [mbind result_bind].
  - unfold log10. destruct (Rlt_dec _ _); cbn [mbind result_bind].
    + apply py_mul_float_raise.
    + by intros [= <-].
  - intros [= <-]. by eapply py_float_raise.
Qed.

Lemma score_place_raise (p : value) (e : exn) :
  score_place p = Raise e -> e <> RequestException.
Proof.
  destruct p; simpl; try by intros [= <-].
  destruct (composite_score _ _) eqn:Hs; simpl; [done|].
  intros [= <-]. by eapply composite_score_raise.
Qed.

Lemma score_all_raise (raw : value) (e : exn) :
  score_all raw = Raise e -> e <> RequestException.
Proof.
  destruct raw as [| | | |s|l|m]; simpl; try by intros [= <-].
  - by destruct s; intros [= <-].
  - induction l as [|p l IH]; simpl; [done|].
    destruct (score_place p) eqn:Hp; simpl.
    + destruct (mapM score_place l); simpl; [done|].
      intros [= <-]. by apply IH.
    + intros [= <-]. by eapply score_place_raise.
  - by destruct (map_to_list m); intros [= <-].
Qed.

Lemma build_output_from_raise (places : list dict) (out : list (value * summary)) (e : exn) :
  build_output_from out places = Raise e -> e <> RequestException.
Proof.
  revert out. induction places as [|p places IH]; intros out; simpl; [done|].
  unfold build_entry.
  destruct (review_snippets p) eqn:Hs; simpl.
  - destruct (hashable _); [apply IH|by intros [= <-]].
  - intros [= <-]. by apply review_snippets_raise in Hs as [-> | [-> | ->]].
Qed.

Section RunBounds.
Context {World : Type}.
Context (http_get : World -> request -> option response * World).
Context (write_file : World -> string -> list (value * summary) -> bool * World).

Lemma dump_to_file_raise (file : string) (content : list (value * summary))
    (w : World) (e : exn) :
  (dump_to_file write_file file content w).1 = Raise e -> e <> RequestException.
Proof.
  unfold dump_to_file. destruct (has_nul file); [by intros [= <-]|].
  by destruct (write_file _ _ _) as [[|] w']; intros [= <-].
Qed.

Lemma dump_to_file_unlogged (file : string) (content : list (value * summary))
    (s : World * list request) :
  (dump_to_file (unlogged write_file) file content s).2.2 = s.2.
Proof.
  unfold dump_to_file, unlogged. destruct (has_nul file); [done|].
  by destruct (write_file _ _ _).
Qed.

Lemma text_search_restaurants_raise (city api_key : string) (w : World) (e : exn) :
  (text_search_restaurants http_get city api_key w).1 = Raise e -> e = AttributeError.
Proof.
  rewrite text_search_restaurants_answer. simpl.
  by intros [-> _]%search_body_raise.
Qed.

Lemma fetch_place_details_raise (place_id : value) (api_key : string) (w : World) (e : exn) :
  (fetch_place_details http_get place_id api_key w).1 = Raise e -> e = AttributeError.
Proof.
  rewrite fetch_place_details_answer. simpl.
  by intros [-> _]%details_body_raise.
Qed.

Lemma enrich_raise (api_key : string) (top : list dict) (w : World) (e : exn) :
  (enrich http_get api_key top w).1 = Raise e -> e <> RequestException.
Proof.
  revert w. induction top as [|p top IH]; intros w; [done|].
  rewrite enrich_cons.
  pose proof (fetch_place_details_raise (get p "place_id" VNone) api_key w) as Hf.
  destruct (fetch_place_details _ _ _ _) as [[details|e1] w1]; simpl in *.
  - destruct (truthy details); [|apply IH].
    destruct (merge p details) as [merged|e2] eqn:Hm.
    + specialize (IH w1).
      destruct (enrich _ _ _ _) as [[rest|e3] w2]; simpl in *; [done|].
      intros [= <-]. by apply IH.
    + simpl. intros [= <-]. unfold merge in Hm. destruct details; by simplify_eq.
  - intros [= <-]. by rewrite (Hf e1 eq_refl).
Qed.

Lemma main_raise (key : option string) (line : string) (w : World) (e : exn) :
  (main http_get write_file key line w).1 = Raise e -> e <> RequestException.
Proof.
  destruct key as [[|c k]|]; [by rewrite main_no_key by eauto| |
    by rewrite main_no_key by eauto].
  destruct (decide (strip line = EmptyString)) as [Hs|Hs];
    [by rewrite main_no_city|].
  rewrite main_regular by done.
  pose proof (text_search_restaurants_raise (strip line) (String c k) w) as Ht.
  destruct (text_search_restaurants _ _ _ _) as [[raw|e1] w1]; simpl in *;
    [|intros [= <-]; by rewrite (Ht e1 eq_refl)].
  destruct (truthy raw); [|done].
  destruct (score_all raw) as [scored|e2] eqn:Hsc; simpl;
    [|intros [= <-]; by eapply score_all_raise].
  pose proof (enrich_raise (String c k) (top_candidates scored) w1) as Hen.
  destruct (enrich _ _ _ _) as [[[|p enriched]|e3] w2]; simpl in *;
    [done| |intros [= <-]; by apply Hen].
  destruct (build_output _) as [out|e4] eqn:Hb; simpl;
    [|intros [= <-]; by eapply build_output_from_raise].
  pose proof (dump_to_file_raise (filename (strip line)) out w2) as Hd.
  destruct (dump_to_file _ _ _ _) as [[[]|e5] w3]; simpl in *; [done|].
  intros [= <-]. by apply Hd.
Qed.

(** X19. A written file holds between one and ten places and is named after
    the stripped input line. *)
Theorem saved_content_size (key : option string) (line : string) (w : World)
    (f : string) (content : list (value * summary)) :
  (main http_get write_file key line w).1 = Ok (Saved f content) ->
  1 <= length content <= 10 /\ f = filename (strip line).
Proof.
  destruct key as [[|c k]|]; [by rewrite main_no_key by eauto| |
    by rewrite main_no_key by eauto].
  destruct (decide (strip line = EmptyString)) as [Hs|Hs];
    [by rewrite main_no_city|].
  rewrite main_regular by done.
  destruct (text_search_restaurants _ _ _ _) as [[raw|e1] w1]; [|done].
  destruct (truthy raw); [|done].
  destruct (score_all raw) as [scored|e2]; [|done].
  pose proof (enrich_kept http_get (String c k) (top_candidates scored) w1) as Hen.
  destruct (enrich _ _ _ _) as [[[|p enriched]|e3] w2]; simpl in *; try done.
  destruct (Hen _ eq_refl) as (_ & _ & _ & _ & Hlen).
  destruct (build_output _) as [out|] eqn:Hb; simpl; [|done].
  destruct (dump_to_file _ _ _ _) as [[[]|e4] w3]; simpl; [|done].
  intros [= <- <-]. split; [|done].
  apply build_output_from_length in Hb as [Hb1 Hb2].
  specialize (Hb2 ltac:(done)).
  assert (length (top_candidates scored) <= 10)
    by (unfold top_candidates; rewrite length_take; lia).
  simpl in *. lia.
Qed.

(** X20. A run sends at most eleven requests: none when the key is missing
    or the city is blank, otherwise the one search request for the stripped
    city followed by at most ten details requests. *)
Theorem main_request_budget (key : option string) (line : string) (w : World) :
  let log := (main (logged http_get) (unlogged write_file) key line (w, [])).2.2 in
  (log = [] /\ (key = None \/ key = Some EmptyString \/ all_space line = true))
  \/ exists api_key details,
       key = Some api_key
       /\ log = search_request (strip line) api_key :: details
       /\ length details <= 10
       /\ Forall (fun req => endpoint req = DETAILS_ENDPOINT) details.
Proof.
  intros log. subst log.
  destruct key as [[|c k]|]; [left; rewrite main_no_key by eauto; eauto| |
    left; rewrite main_no_key by eauto; eauto].
  destruct (decide (strip line = EmptyString)) as [Hs|Hs].
  { left. rewrite main_no_city by done. apply strip_empty_iff in Hs. eauto. }
  right. exists (String c k). rewrite main_regular by done.
  pose proof (text_search_restaurants_logged http_get (strip line) (String c k) (w, []))
    as Hlog.
  assert (Hstop : forall s : World * list request,
    s.2 = [search_request (strip line) (String c k)] ->
    exists details,
      Some (String c k) = Some (String c k)
      /\ s.2 = search_request (strip line) (String c k) :: details
      /\ length details <= 10
      /\ Forall (fun req => endpoint req = DETAILS_ENDPOINT) details).
  { intros s Hs'. exists []. split_and!; [done|done|simpl; lia|constructor]. }
  destruct (text_search_restaurants _ _ _ _) as [[raw|e1] s1]; simpl in Hlog;
    [|by apply Hstop].
  destruct (truthy raw); [|by apply Hstop].
  destruct (score_all raw) as [scored|e2]; [|by apply Hstop].
  destruct (enrich_logged http_get (String c k) (top_candidates scored) s1)
    as (n & Hn & Hreq & _).
  exists (details_request_of (String c k) <$> take n (top_candidates scored)).
  split; [done|]. split_and!.
  - rewrite Hlog in Hreq.
    destruct (enrich _ _ _ _) as [[[|p enriched]|e3] s2]; simpl in *; try done.
    destruct (build_output _) as [out|]; [|done].
    pose proof (dump_to_file_unlogged (filename (strip line)) out s2) as Hd.
    destruct (dump_to_file _ _ _ _) as [[[]|e4] s3]; simpl in *; congruence.
  - rewrite length_fmap, length_take. unfold top_candidates.
    rewrite length_take. lia.
  - apply Forall_fmap, Forall_forall. by intros p _.
Qed.

End RunBounds.

(** Runs that raise, one for each class of exception. *)
Lemma main_score_raises (results : list value) (e : exn) :
  results <> [] -> score_all (VList results) = Raise e ->
  (main (serves (VList results) VNone) any_file (Some "key") "Oslo" tt).1 = Raise e.
Proof.
  intros Hne Hs. unfold main, enrichment_stage.
  change (strip "Oslo") with "Oslo". cbv beta iota zeta.
  unfold mbind, io_bind, lift. cbv beta.
  rewrite serves_search. cbv beta iota.
  assert (Ht : truthy (VList results) = true) by by destruct results.
  by rewrite Ht, Hs.
Qed.

Lemma score_all_count (z : Z) (e : exn) :
  composite_score VNone (VInt z) = Raise e ->
  score_all (VList [VDict {[ "user_ratings_total" := VInt z ]}]) = Raise e.
Proof.
  intros H. unfold score_all, mapM, score_place.
  change (get {[ "user_ratings_total" := VInt z ]} "rating" VNone) with VNone.
  change (get {[ "user_ratings_total" := VInt z ]} "user_ratings_total" VNone)
    with (VInt z).
  by rewrite H.
Qed.

Lemma main_raises_attribute_error :
  (main (always (Some (Response 200 (Some (VList []))))) any_file
     (Some "key") "Oslo" tt).1 = Raise AttributeError.
Proof. reflexivity. Qed.

Lemma main_raises_type_error :
  (main (serves (VInt 5) VNone) any_file (Some "key") "Oslo" tt).1 = Raise TypeError.
Proof. reflexivity. Qed.

Lemma main_raises_value_error :
  (main (serves (VList [VDict {[ "user_ratings_total" := VInt (-1) ]}]) VNone)
     any_file (Some "key") "Oslo" tt).1 = Raise ValueError.
Proof.
  apply main_score_raises; [done|]. apply score_all_count.
  apply (composite_score_negative_count None). by vm_compute.
Qed.

Lemma main_raises_overflow_error :
  (main (serves (VList [VDict {[ "user_ratings_total" := VInt (10 ^ 400) ]}]) VNone)
     any_file (Some "key") "Oslo" tt).1 = Raise OverflowError.
Proof.
  apply main_score_raises; [done|]. apply score_all_count.
  apply (composite_score_huge_count None). by vm_compute.
Qed.

Lemma main_raises_dict_slice_error :
  (main (serves (VList [VDict unrated_b])
           (VDict {[ "reviews" := VDict {[ "text" := VStr "fine" ]} ]}))
     any_file (Some "key") "Oslo" tt).1 = Raise DictSliceError.
Proof. unfold main, mbind, io_bind. by rewrite enrichment_stage_serves. Qed.

Lemma main_raises_os_error :
  (main (serves (VList [VDict unrated_b]) (VDict {[ "url" := VStr "u" ]}))
     flat_directory (Some "key") "a/b" tt).1 = Raise OSError.
Proof. unfold main, mbind, io_bind. by rewrite enrichment_stage_serves. Qed.

(** X18. No failure of the network ever leaves [main], and every other
    class of exception can: whatever the environment, the typed line, the
    answers of the network and the file system, an exception that escapes
    the run is not a [RequestException]; and for each of [TypeError],
    [ValueError], [AttributeError], [OverflowError], [DictSliceError] and
    [OSError] there is a run that ends in it. *)
Theorem main_exceptions :
  (forall (World : Type) (http_get : World -> request -> option response * World)
          (write_file : World -> string -> list (value * summary) -> bool * World)
          (key : option string) (line : string) (w : World) (e : exn),
     (main http_get write_file key line w).1 = Raise e -> e <> RequestException)
  /\ (forall e : exn, e <> RequestException ->
      exists (http_get : unit -> request -> option response * unit)
             (write_file : unit -> string -> list (value * summary) -> bool * unit)
             (line : string),
        (main http_get write_file (Some "key") line tt).1 = Raise e).
Proof.
  split.
  - intros World http_get write_file key line w e. apply main_raise.
  - intros e He. destruct e; [| | | | | |done].
    + eexists _, _, _. apply main_raises_type_error.
    + eexists _, _, _. apply main_raises_value_error.
    + eexists _, _, _. apply main_raises_attribute_error.
    + eexists _, _, _. apply main_raises_overflow_error.
    + eexists _, _, _. apply main_raises_dict_slice_error.
    + eexists _, _, _. apply main_raises_os_error.
Qed.

Lemma saved_content_size_witness :
  1 <= length [(VStr "Bistro B", Summary VNone VNone VNone VNone (VStr "u") VNone [])] <= 10
  /\ "top-10-restaurants-new_york.json" = filename (strip "  New York ").
Proof.
  exact (saved_content_size guide any_file (Some "key") "  New York " tt _ _ main_new_york).
Defined.
